(** * Focus Session Helper: the session timer and the day-keyed statistics

    A shallow embedding of [src/extension.js]: the [StatsManager] and
    [FocusSessionManager] classes, the helpers [minutesToMilliseconds],
    [getTodayKey] and [formatDuration], and, of the command layer,
    [validateMinutesInput] and [askAndStartSession].

    Modelling conventions.
    - A JavaScript number is a [number]: NaN, the two infinities, or a finite
      value.  Finite values are exact rationals ([Qc]): a sum, a difference
      or a product of the model is the exact one, where the program rounds
      it to the nearest binary64 value.  The two agree wherever the exact
      result is itself a binary64 value, and so on whole numbers up to 2^53
      in magnitude.  A statement that gives the value of a sum, a difference
      or a product is therefore made for such whole numbers; a statement
      made for every number is about the order and the sign of the values,
      which rounding to nearest keeps.  The sign of zero is not modelled.
    - Where the rounding itself is the point, the arithmetic is computed on
      binary64 values ([Binary64], over the primitive floats).
    - A JavaScript value is a [jsval].  An object is a finite map from
      property names to values ([gmap string jsval]).
    - Every method is a function from the manager's fields to the new fields
      and the list of calls it makes on the host ([host_call]): messages,
      [setInterval] / [clearInterval], [Memento.update].
    - A reading of the host's clock ([Date.now()], [new Date()]) and the
      outcome of a [Memento.update] are arguments of the method that asks
      for them. *)

From Corelib Require Import PrimFloat.
From Stdlib Require Import QArith Qcanon Qround Lqa Ascii.
From stdpp Require Import gmap strings pretty.

Local Open Scope Z_scope.
Set Warnings "-register-all".
Set Warnings "-inexact-float".

(** ** JavaScript numbers *)

Inductive number :=
| NaN
| PosInf
| NegInf
| Fin (q : Qc).

(** An integer as a number. *)
Definition of_Z (z : Z) : number := Fin (Q2Qc (inject_Z z)).

(** [x <= y] and [x < y] on finite values. *)
Definition Qcleb (x y : Qc) : bool := Qle_bool x y.
Definition Qcltb (x y : Qc) : bool := negb (Qle_bool y x).

(** [Number.isFinite(x)] for a number [x]. *)
Definition Number_isFinite (x : number) : bool :=
  match x with Fin _ => true | _ => false end.

(** [a <= b]: false as soon as one side is NaN. *)
Definition num_leb (a b : number) : bool :=
  match a, b with
  | NaN, _ | _, NaN => false
  | NegInf, _ => true
  | _, PosInf => true
  | PosInf, _ => false
  | _, NegInf => false
  | Fin x, Fin y => Qcleb x y
  end.

(** [a < b]. *)
Definition num_ltb (a b : number) : bool :=
  match a, b with
  | NaN, _ | _, NaN => false
  | PosInf, _ => false
  | _, NegInf => false
  | NegInf, _ => true
  | _, PosInf => true
  | Fin x, Fin y => Qcltb x y
  end.

(** [a + b]: opposite infinities give NaN. *)
Definition num_add (a b : number) : number :=
  match a, b with
  | NaN, _ | _, NaN => NaN
  | PosInf, NegInf | NegInf, PosInf => NaN
  | PosInf, _ | _, PosInf => PosInf
  | NegInf, _ | _, NegInf => NegInf
  | Fin x, Fin y => Fin (x + y)%Qc
  end.

(** [a - b]. *)
Definition num_sub (a b : number) : number :=
  match a, b with
  | NaN, _ | _, NaN => NaN
  | PosInf, PosInf | NegInf, NegInf => NaN
  | PosInf, _ | _, NegInf => PosInf
  | NegInf, _ | _, PosInf => NegInf
  | Fin x, Fin y => Fin (x - y)%Qc
  end.

(** An infinity times a finite value: NaN at zero, else by the signs. *)
Definition inf_times (positive : bool) (x : Qc) : number :=
  if Qcltb 0%Qc x then (if positive then PosInf else NegInf)
  else if Qcltb x 0%Qc then (if positive then NegInf else PosInf)
  else NaN.

(** [a * b]. *)
Definition num_mul (a b : number) : number :=
  match a, b with
  | NaN, _ | _, NaN => NaN
  | PosInf, PosInf | NegInf, NegInf => PosInf
  | PosInf, NegInf | NegInf, PosInf => NegInf
  | PosInf, Fin x | Fin x, PosInf => inf_times true x
  | NegInf, Fin x | Fin x, NegInf => inf_times false x
  | Fin x, Fin y => Fin (x * y)%Qc
  end.

(** [Math.max(a, b)]: NaN as soon as one argument is NaN. *)
Definition Math_max (a b : number) : number :=
  match a, b with
  | NaN, _ | _, NaN => NaN
  | _, _ => if num_leb a b then b else a
  end.

(** ** JavaScript values *)

(** [JCat v n] is the string that [v + n] builds when [v] is a string or an
    object: the text of [v] followed by the text of the number [n].  It is
    kept as the pair, since nothing below reads its characters. *)
Inductive jsval :=
| JUndefined
| JNull
| JBool (b : bool)
| JNum (n : number)
| JStr (s : string)
| JCat (v : jsval) (n : number)
| JObject (isArray : bool) (props : gmap string jsval).

(** An object: whether it is an array, and its own properties. *)
Record object := Object { isArray : bool; props : gmap string jsval }.

Definition JObj (o : object) : jsval := JObject (isArray o) (props o).

(** The object literal [{}]. *)
Definition empty_object : object := Object false ∅.

(** Whether [if (v)] takes the branch: [undefined], [null], [false], [0],
    [NaN] and the empty string do not. *)
Definition truthy (v : jsval) : bool :=
  match v with
  | JUndefined | JNull => false
  | JBool b => b
  | JNum NaN => false
  | JNum (Fin q) => negb (Qeq_bool q 0)
  | JNum _ => true
  | JStr s => negb (String.eqb s "")
  | JCat _ _ => true
  | JObject _ _ => true
  end.

(** [typeof v]. *)
Definition typeof (v : jsval) : string :=
  match v with
  | JUndefined => "undefined"
  | JNull => "object"
  | JBool _ => "boolean"
  | JNum _ => "number"
  | JStr _ | JCat _ _ => "string"
  | JObject _ _ => "object"
  end.

(** [a || b]. *)
Definition js_or (a b : jsval) : jsval := if truthy a then a else b.

(** [v + n] for a number [n]: a sum when [v] is a number, a boolean, [null]
    or [undefined] (each read as a number), a concatenation otherwise.  The
    text of an object is what its conversion methods give; an object whose
    own properties hide both of them ([valueOf] and [toString]) has none,
    and the addition throws: the statements below that give the result of
    an addition are made for the values that are not objects. *)
Definition js_plus (v : jsval) (n : number) : jsval :=
  match v with
  | JNum x => JNum (num_add x n)
  | JBool b => JNum (num_add (of_Z (if b then 1 else 0)) n)
  | JNull => JNum (num_add (of_Z 0) n)
  | JUndefined => JNum (num_add NaN n)
  | JStr _ | JCat _ _ | JObject _ _ => JCat v n
  end.

(** [o[key]]: [undefined] when [o] has no such property. *)
Definition get_prop (o : object) (key : string) : jsval :=
  default JUndefined (props o !! key).

(** [o[key] = v]. *)
Definition set_prop (o : object) (key : string) (v : jsval) : object :=
  Object (isArray o) (<[key := v]> (props o)).

(** ** Constants and helpers of [extension.js] *)

Definition STORAGE_KEY_STATS : string := "focusSession.stats".

Definition TICK_INTERVAL_MS : number := of_Z 1000.

(** [minutesToMilliseconds(minutes)]. *)
Definition minutesToMilliseconds (minutes : number) : number :=
  if negb (Number_isFinite minutes) then of_Z 0
  else num_mul (num_mul minutes (of_Z 60)) (of_Z 1000).

(** The local calendar fields of a [Date]: [getFullYear()], [getMonth()]
    (January is 0) and [getDate()]. *)
Record Date := { getFullYear : Z; getMonth : Z; getDate : Z }.

(** [s.padStart(n, c)] for a one-character [c]. *)
Fixpoint pad (k : nat) (c : Ascii.ascii) (s : string) : string :=
  match k with O => s | S k' => String c (pad k' c s) end.

Definition padStart (n : nat) (c : Ascii.ascii) (s : string) : string :=
  pad (n - String.length s)%nat c s.

(** [getTodayKey()], where [now] is what [new Date()] gave. *)
Definition getTodayKey (now : Date) : string :=
  let year := getFullYear now in
  let month := padStart 2 "0"%char (pretty (getMonth now + 1)) in
  let day := padStart 2 "0"%char (pretty (getDate now)) in
  pretty year +:+ "-" +:+ month +:+ "-" +:+ day.

(** ** The host *)

(** The texts shown to the user, by the place that shows them. *)
Inductive message :=
| MsgInvalidDuration   (* startNewSession: the duration must be positive *)
| MsgNotStarted        (* togglePauseOrResume: no session is running *)
| MsgStopped           (* stopSession: the session was stopped *)
| MsgFinished.         (* _finishSession: finished, time added to the statistics *)

(** What [setInterval] returns: the interval, with its period. *)
Inductive interval := Interval (period : number).

(** The calls a method makes on the host, in the order it makes them. *)
Inductive host_call :=
| ShowWarningMessage (m : message)
| ShowInformationMessage (m : message)
| ConsoleError
| SetInterval (period : number)
| ClearInterval (t : interval)
| MementoUpdate (key : string) (value : jsval).

(** The payloads of the [Memento.update] calls among [calls]. *)
Definition updates (calls : list host_call) : list jsval :=
  omap (fun c => match c with MementoUpdate _ v => Some v | _ => None end) calls.

(** The promise a method returns: [Promise.resolve()], or the thenable of
    a [Memento.update], which the host fulfils or rejects. *)
Inductive thenable := PromiseResolve | UpdateThenable.

Definition fulfilled (p : thenable) (update_ok : bool) : bool :=
  match p with PromiseResolve => true | UpdateThenable => update_ok end.

(** ** StatsManager *)

Record StatsManager := {
  _globalState : gmap string jsval;
  _stats : object
}.

(** [memento.get(key)]. *)
Definition Memento_get (g : gmap string jsval) (key : string) : jsval :=
  default JUndefined (g !! key).

(** [_loadStats()].  A value that passes the test is an object; the last
    case of the match is never taken ([_loadStats_object]). *)
Definition _loadStats (g : gmap string jsval) : object :=
  let raw := Memento_get g STORAGE_KEY_STATS in
  if negb (truthy raw) || negb (String.eqb (typeof raw) "object") then
    empty_object
  else
    match raw with
    | JObject a p => Object a p
    | _ => empty_object
    end.

(** [new StatsManager(globalState)]. *)
Definition StatsManager_new (globalState : gmap string jsval) : StatsManager :=
  {| _globalState := globalState; _stats := _loadStats globalState |}.

(** [_saveStats()]. *)
Definition _saveStats (sm : StatsManager)
  : StatsManager * list host_call * thenable :=
  let v := JObj (_stats sm) in
  ({| _globalState := <[STORAGE_KEY_STATS := v]> (_globalState sm);
      _stats := _stats sm |},
   [MementoUpdate STORAGE_KEY_STATS v],
   UpdateThenable).

(** [addFocusedMilliseconds(deltaMs)], where [today] is what [new Date()]
    gives inside [getTodayKey()]. *)
Definition addFocusedMilliseconds (today : Date) (deltaMs : number)
    (sm : StatsManager) : StatsManager * list host_call * thenable :=
  if negb (Number_isFinite deltaMs) || num_leb deltaMs (of_Z 0) then
    (sm, [], PromiseResolve)
  else
    let key := getTodayKey today in
    let prev := js_or (get_prop (_stats sm) key) (JNum (of_Z 0)) in
    _saveStats
      {| _globalState := _globalState sm;
         _stats := set_prop (_stats sm) key (js_plus prev deltaMs) |}.

(** [getTodayMilliseconds()]. *)
Definition getTodayMilliseconds (today : Date) (sm : StatsManager) : jsval :=
  let key := getTodayKey today in
  js_or (get_prop (_stats sm) key) (JNum (of_Z 0)).

(** ** FocusSessionManager *)

(** What the status bar item shows.  [TextFocus r running] is the remaining
    time [r], formatted, with the sign of a running or of a paused session;
    the tooltip is set along with the text, and follows from it. *)
Inductive status_text :=
| TextInitial
| TextNotStarted
| TextFocus (remainingMs : number) (running : bool)
| TextFinished.

Record StatusBarItem := {
  text : status_text;
  visible : bool;
  disposed : bool
}.

Record FocusSessionManager := {
  _statsManager : StatsManager;
  _statusBarItem : StatusBarItem;
  _timer : option interval;
  _remainingMs : number;
  _running : bool;
  _lastTickTime : number
}.

Definition set_statsManager (v : StatsManager) (m : FocusSessionManager) :=
  {| _statsManager := v; _statusBarItem := _statusBarItem m;
     _timer := _timer m; _remainingMs := _remainingMs m;
     _running := _running m; _lastTickTime := _lastTickTime m |}.

Definition set_statusBarItem (v : StatusBarItem) (m : FocusSessionManager) :=
  {| _statsManager := _statsManager m; _statusBarItem := v;
     _timer := _timer m; _remainingMs := _remainingMs m;
     _running := _running m; _lastTickTime := _lastTickTime m |}.

Definition set_timer (v : option interval) (m : FocusSessionManager) :=
  {| _statsManager := _statsManager m; _statusBarItem := _statusBarItem m;
     _timer := v; _remainingMs := _remainingMs m;
     _running := _running m; _lastTickTime := _lastTickTime m |}.

Definition set_remainingMs (v : number) (m : FocusSessionManager) :=
  {| _statsManager := _statsManager m; _statusBarItem := _statusBarItem m;
     _timer := _timer m; _remainingMs := v;
     _running := _running m; _lastTickTime := _lastTickTime m |}.

Definition set_running (v : bool) (m : FocusSessionManager) :=
  {| _statsManager := _statsManager m; _statusBarItem := _statusBarItem m;
     _timer := _timer m; _remainingMs := _remainingMs m;
     _running := v; _lastTickTime := _lastTickTime m |}.

Definition set_lastTickTime (v : number) (m : FocusSessionManager) :=
  {| _statsManager := _statsManager m; _statusBarItem := _statusBarItem m;
     _timer := _timer m; _remainingMs := _remainingMs m;
     _running := _running m; _lastTickTime := v |}.

(** [this._statusBarItem.text = t]. *)
Definition set_text (t : status_text) (m : FocusSessionManager) :=
  set_statusBarItem
    {| text := t; visible := visible (_statusBarItem m);
       disposed := disposed (_statusBarItem m) |} m.

(** [new FocusSessionManager(context)], where [globalState] is
    [context.globalState]. *)
Definition FocusSessionManager_new (globalState : gmap string jsval)
  : FocusSessionManager :=
  {| _statsManager := StatsManager_new globalState;
     _statusBarItem :=
       {| text := TextInitial; visible := false; disposed := false |};
     _timer := None;
     _remainingMs := of_Z 0;
     _running := false;
     _lastTickTime := of_Z 0 |}.

(** [_updateStatusBar()].  The item is created by the constructor and never
    cleared, so the first test of the method never returns. *)
Definition _updateStatusBar (m : FocusSessionManager) : FocusSessionManager :=
  if num_leb (_remainingMs m) (of_Z 0) && negb (_running m) then
    set_text TextNotStarted m
  else
    set_text (TextFocus (_remainingMs m) (_running m)) m.

(** [_stopTimerInternal(resetRemaining)]. *)
Definition _stopTimerInternal (resetRemaining : bool) (m : FocusSessionManager)
  : FocusSessionManager * list host_call :=
  let '(m, calls) :=
    match _timer m with
    | Some t => (set_timer None m, [ClearInterval t])
    | None => (m, [])
    end in
  let m := set_running false m in
  let m := if resetRemaining then set_remainingMs (of_Z 0) m else m in
  (_updateStatusBar m, calls).

(** [startNewSession(minutes)], where [now] is what [Date.now()] gives. *)
Definition startNewSession (now : Z) (minutes : number) (m : FocusSessionManager)
  : FocusSessionManager * list host_call :=
  let ms := minutesToMilliseconds minutes in
  if num_leb ms (of_Z 0) then
    (m, [ShowWarningMessage MsgInvalidDuration])
  else
    let '(m, calls) := _stopTimerInternal false m in
    let m := set_remainingMs ms m in
    let m := set_running true m in
    let m := set_lastTickTime (of_Z now) m in
    let m :=
      set_statusBarItem
        {| text := text (_statusBarItem m); visible := true;
           disposed := disposed (_statusBarItem m) |} m in
    let m := _updateStatusBar m in
    let m := set_timer (Some (Interval TICK_INTERVAL_MS)) m in
    (m, calls ++ [SetInterval TICK_INTERVAL_MS]).

(** What the host supplies while a session finishes: the reading of
    [Date.now()] in [_finishSession], the [new Date()] of [getTodayKey()],
    and whether the [Memento.update] succeeds. *)
Record finish_env := {
  finish_now : Z;
  finish_today : Date;
  update_ok : bool
}.

(** [_finishSession()].  The last call is that of the handler the promise
    runs once it is settled: the message, or the error on the console. *)
Definition _finishSession (env : finish_env) (m : FocusSessionManager)
  : FocusSessionManager * list host_call :=
  let now := of_Z (finish_now env) in
  let last := _lastTickTime m in
  let spentMs :=
    Math_max (of_Z 0) (num_add (num_sub now last) TICK_INTERVAL_MS) in
  let m := set_running false m in
  let '(m, calls) := _stopTimerInternal false m in
  let m := set_text TextFinished m in
  let '(sm, saved, p) :=
    addFocusedMilliseconds (finish_today env) spentMs (_statsManager m) in
  let m := set_statsManager sm m in
  (m, calls ++ saved ++
      [if fulfilled p (update_ok env)
       then ShowInformationMessage MsgFinished else ConsoleError]).

(** [_onTick()], where [now] is what [Date.now()] gives. *)
Definition _onTick (now : Z) (env : finish_env) (m : FocusSessionManager)
  : FocusSessionManager * list host_call :=
  if negb (_running m) then (m, [])
  else
    let now := of_Z now in
    let delta := num_sub now (_lastTickTime m) in
    let m := set_lastTickTime now m in
    let m := set_remainingMs (num_sub (_remainingMs m) delta) m in
    if num_leb (_remainingMs m) (of_Z 0) then
      let m := set_remainingMs (of_Z 0) m in
      let m := _updateStatusBar m in
      _finishSession env m
    else
      (_updateStatusBar m, []).

(** [togglePauseOrResume()], where [now] is what [Date.now()] gives. *)
Definition togglePauseOrResume (now : Z) (m : FocusSessionManager)
  : FocusSessionManager * list host_call :=
  if num_leb (_remainingMs m) (of_Z 0) && negb (_running m) then
    (m, [ShowInformationMessage MsgNotStarted])
  else if _running m then
    let m := set_running false m in
    (_updateStatusBar m, [])
  else
    let m := set_running true m in
    let m := set_lastTickTime (of_Z now) m in
    (_updateStatusBar m, []).

(** [stopSession(showMessage)]. *)
Definition stopSession (showMessage : bool) (m : FocusSessionManager)
  : FocusSessionManager * list host_call :=
  let '(m, calls) := _stopTimerInternal true m in
  (m, calls ++
      (if showMessage then [ShowInformationMessage MsgStopped] else [])).

(** [dispose()]. *)
Definition dispose (m : FocusSessionManager)
  : FocusSessionManager * list host_call :=
  let '(m, calls) := _stopTimerInternal false m in
  (set_statusBarItem
     {| text := text (_statusBarItem m); visible := visible (_statusBarItem m);
        disposed := true |} m,
   calls).

(** ** Runs *)

(** What happens to a manager: a command of the user, a tick of the
    interval, or the end of the extension.  [showTodayStats] only reads the
    statistics and shows them; it changes no field and is left out. *)
Inductive event :=
| Start (now : Z) (minutes : number)
| Tick (now : Z) (env : finish_env)
| Toggle (now : Z)
| Stop (showMessage : bool)
| Dispose.

Definition step (e : event) (m : FocusSessionManager)
  : FocusSessionManager * list host_call :=
  match e with
  | Start now minutes => startNewSession now minutes m
  | Tick now env => _onTick now env m
  | Toggle now => togglePauseOrResume now m
  | Stop showMessage => stopSession showMessage m
  | Dispose => dispose m
  end.

(** The events of [es] in order, with all the calls made. *)
Fixpoint run (es : list event) (m : FocusSessionManager)
  : FocusSessionManager * list host_call :=
  match es with
  | [] => (m, [])
  | e :: es' =>
      let '(m1, c1) := step e m in
      let '(m2, c2) := run es' m1 in
      (m2, c1 ++ c2)
  end.

(** The managers a run can reach from a new one. *)
Inductive reachable : FocusSessionManager -> Prop :=
| reachable_new globalState :
    reachable (FocusSessionManager_new globalState)
| reachable_step e m :
    reachable m -> reachable (step e m).1.

(** ** Predicates of the statements *)

(** [a <= b] and [a < b] as propositions. *)
Definition num_le (a b : number) : Prop := num_leb a b = true.
Definition num_lt (a b : number) : Prop := num_ltb a b = true.

(** What every reachable timer satisfies: the remaining time and the time
    of the last tick are finite, the remaining time is not negative, and
    it is positive while the session runs. *)
Definition timer_ok (m : FocusSessionManager) : bool :=
  Number_isFinite (_remainingMs m)
  && num_leb (of_Z 0) (_remainingMs m)
  && Number_isFinite (_lastTickTime m)
  && implb (_running m) (num_ltb (of_Z 0) (_remainingMs m)).

(** The shape of a day key, YYYY-MM-DD. *)
Definition is_digit (c : ascii) : bool :=
  (48 <=? nat_of_ascii c)%nat && (nat_of_ascii c <=? 57)%nat.

Definition is_date_key (k : string) : bool :=
  match String.list_ascii_of_string k with
  | [y1; y2; y3; y4; s1; m1; m2; s2; d1; d2] =>
      forallb is_digit [y1; y2; y3; y4; m1; m2; d1; d2]
      && Ascii.eqb s1 "-" && Ascii.eqb s2 "-"
  | _ => false
  end.

Definition is_number (v : jsval) : bool :=
  match v with JNum _ => true | _ => false end.

(** The statistics as the specification describes them: a mapping (an
    object that is not an array) from day keys to numbers. *)
Definition well_formed_mapping (v : jsval) : bool :=
  match v with
  | JObject false p =>
      forallb (fun kv => is_date_key kv.1 && is_number kv.2) (map_to_list p)
  | _ => false
  end.

(** The remaining time after each of the [ticks], delivered in order. *)
Fixpoint tick_trace (ticks : list (Z * finish_env)) (m : FocusSessionManager)
  : list number :=
  match ticks with
  | [] => []
  | (now, env) :: rest =>
      let m' := (_onTick now env m).1 in
      _remainingMs m' :: tick_trace rest m'
  end.

(** The clock never goes back: each of the [ticks], delivered in order,
    reads a time that is not before the stored time of the last tick. *)
Fixpoint clock_non_decreasing (ticks : list (Z * finish_env))
    (m : FocusSessionManager) : Prop :=
  match ticks with
  | [] => True
  | (now, env) :: rest =>
      num_le (_lastTickTime m) (of_Z now)
      /\ clock_non_decreasing rest (_onTick now env m).1
  end.

(** Each number of [l] is at most the one before it, [first] coming first. *)
Fixpoint non_increasing (first : number) (l : list number) : Prop :=
  match l with
  | [] => True
  | x :: rest => num_le x first /\ non_increasing x rest
  end.

(** ** Sample values *)

Definition today0 : Date :=
  {| getFullYear := 2026; getMonth := 10; getDate := 2 |}.

Definition env0 (now : Z) : finish_env :=
  {| finish_now := now; finish_today := today0; update_ok := true |}.

(** A new manager over an empty store. *)
Definition idle0 : FocusSessionManager := FocusSessionManager_new ∅.

(** A session of one minute, started at time 0. *)
Definition running0 : FocusSessionManager :=
  (startNewSession 0 (of_Z 1) idle0).1.

(** The ticks of a whole minute: one per second, at 1000, ..., 60000, the
    clock standing still while a tick is handled. *)
Definition one_minute_of_ticks : list event :=
  map (fun k => Tick (1000 * k) (env0 (1000 * k))) (seqZ 1 60).

(** A stored value that is an object, with a text where a number belongs. *)
Definition malformed_payload : jsval :=
  JObject false {[ "2026-11-02" := JStr "25 min" ]}.

(** A statistics manager with 25 minutes on the first of November 2026. *)
Definition stats0 : StatsManager :=
  StatsManager_new
    {[ STORAGE_KEY_STATS
       := JObject false {[ "2026-11-01" := JNum (of_Z 1500000) ]} ]}.

(** ** Formatting *)

(** [formatDuration(ms)].  [Number.isFinite] is false of what is not a
    number, so such an argument counts as 0, like a negative one.  From
    there on every value is a non-negative integer: the whole seconds, the
    whole minutes and the seconds left, which the template prints in
    decimal digits (as JavaScript does below 10^21).  The quotient
    [ms / 1000] is the exact one, where the program rounds it before it
    takes the whole part: below 2^53 ms the whole part is the same. *)
Definition formatDuration (ms : jsval) : string :=
  let ms : Qc :=
    match ms with
    | JNum (Fin q) => if Qcltb q 0%Qc then 0%Qc else q
    | _ => 0%Qc
    end in
  let totalSeconds := Qfloor (ms / Q2Qc (inject_Z 1000))%Qc in
  let minutes := totalSeconds `div` 60 in
  let seconds := totalSeconds `mod` 60 in
  if (minutes <=? 0) && (seconds <=? 0) then "0 сек"
  else if minutes <=? 0 then pretty seconds +:+ " сек"
  else if seconds <=? 0 then pretty minutes +:+ " мин"
  else pretty minutes +:+ " мин " +:+ pretty seconds +:+ " сек".

(** ** The statistics of the day, in words *)

Section Conversions.

(** [Number(v)] for a string [v], and for an object through its text: the
    conversion of the language, of which nothing is assumed. *)
Variable ToNumber_text : jsval -> number.

(** [Number(v)]. *)
Definition ToNumber (v : jsval) : number :=
  match v with
  | JUndefined => NaN
  | JNull => of_Z 0
  | JBool b => of_Z (if b then 1 else 0)
  | JNum n => n
  | JStr _ | JCat _ _ | JObject _ _ => ToNumber_text v
  end.

(** [v <= n] for a number [n]. *)
Definition js_leb (v : jsval) (n : number) : bool := num_leb (ToNumber v) n.

(** [getTodayStatsMessage()]. *)
Definition getTodayStatsMessage (today : Date) (sm : StatsManager) : string :=
  let ms := getTodayMilliseconds today sm in
  if js_leb ms (of_Z 0) then
    "Сегодня статистика фокус-сессий отсутствует."
  else
    let formatted := formatDuration ms in
    "Сегодня вы работали фокусно " +:+ formatted +:+ ".".

End Conversions.

(** ** The command layer *)

(** Why [validateMinutesInput] refuses a text. *)
Inductive validation_error :=
| ErrEmpty         (* nothing but blanks was entered *)
| ErrNotNumber     (* the text is not a number *)
| ErrNotPositive   (* the number is not above zero *)
| ErrTooLarge.     (* the number is above 480 *)

(** The calls of the command layer: those of the manager, and its own. *)
Inductive command_call :=
| ManagerCall (c : host_call)
| ShowErrorMessage.         (* askAndStartSession: the minutes are not valid *)

(** [s.replace(',', '.')]: the first comma of [s] becomes a point. *)
Fixpoint replace_comma (s : string) : string :=
  match s with
  | EmptyString => EmptyString
  | String c s' =>
      if Ascii.eqb c ","%char then String "."%char s'
      else String c (replace_comma s')
  end.

Section Builtins.

(** [s.trim()] and [parseFloat(s)], of which nothing is assumed. *)
Variable trim : string -> string.
Variable parseFloat : string -> number.

(** [validateMinutesInput(value)]: the reason of the refusal, or [None]
    for [null]. *)
Definition validateMinutesInput (value : string) : option validation_error :=
  if String.eqb value "" || String.eqb (trim value) "" then Some ErrEmpty
  else
    let normalized := replace_comma value in
    let number := parseFloat normalized in
    if negb (Number_isFinite number) then Some ErrNotNumber
    else if num_leb number (of_Z 0) then Some ErrNotPositive
    else if num_ltb (of_Z 480) number then Some ErrTooLarge
    else None.

(** [askAndStartSession(manager)], where [result] is what the input box
    gave ([None] for [undefined], when the user dismissed it) and [now] is
    what [Date.now()] gives. *)
Definition askAndStartSession (result : option string) (now : Z)
    (manager : FocusSessionManager) : FocusSessionManager * list command_call :=
  match result with
  | None => (manager, [])
  | Some result =>
      let minutes := parseFloat (replace_comma result) in
      if negb (Number_isFinite minutes) || num_leb minutes (of_Z 0) then
        (manager, [ShowErrorMessage])
      else
        let '(manager, calls) := startNewSession now minutes manager in
        (manager, map ManagerCall calls)
  end.

End Builtins.

(** ** More predicates of the statements *)

(** The intervals alive on the host after [calls]: one more for each
    [setInterval], one less for each [clearInterval]. *)
Fixpoint live_intervals (calls : list host_call) : Z :=
  match calls with
  | [] => 0
  | SetInterval _ :: rest => 1 + live_intervals rest
  | ClearInterval _ :: rest => live_intervals rest - 1
  | _ :: rest => live_intervals rest
  end.

(** The intervals the manager holds: one, or none. *)
Definition held_intervals (m : FocusSessionManager) : Z :=
  match _timer m with Some _ => 1 | None => 0 end.

(** The text [_updateStatusBar] gives for the fields of [m]. *)
Definition display_of (m : FocusSessionManager) : status_text :=
  if num_leb (_remainingMs m) (of_Z 0) && negb (_running m) then TextNotStarted
  else TextFocus (_remainingMs m) (_running m).

(** The manager after each of the [ticks], delivered in order. *)
Fixpoint after_ticks (ticks : list (Z * finish_env)) (m : FocusSessionManager)
  : FocusSessionManager :=
  match ticks with
  | [] => m
  | (now, env) :: rest => after_ticks rest (_onTick now env m).1
  end.

(** When the session ends if it keeps running: the time of the last tick
    plus the time that remained then. *)
Definition deadline (m : FocusSessionManager) : number :=
  num_add (_lastTickTime m) (_remainingMs m).

(** A month and a day of the month as a [Date] gives them. *)
Definition valid_date (d : Date) : bool :=
  (0 <=? getMonth d) && (getMonth d <=? 11)
  && (1 <=? getDate d) && (getDate d <=? 31).

(** ** More sample values *)

(** A [parseFloat] that knows three texts, and a [trim] that knows one. *)
Definition sample_parseFloat (s : string) : number :=
  if String.eqb s "25" then of_Z 25
  else if String.eqb s "0.5" then Fin (Q2Qc (1 # 2))
  else if String.eqb s "600" then of_Z 600
  else NaN.

Definition sample_trim (s : string) : string :=
  if String.eqb s " " then "" else s.

Definition sample_ToNumber_text (v : jsval) : number := NaN.

(** ** The arithmetic on binary64 values *)

(** The numbers of the program are binary64 values.  Here are, on them, the
    two computations whose results the rounding shows in: the product of
    [minutesToMilliseconds], which [startNewSession] stores, and the sum of
    [addFocusedMilliseconds]. *)
Module Binary64.

(** A whole number as a binary64 value: the number itself up to 2^53 in
    magnitude. *)
Fixpoint of_pos (p : positive) : float :=
  match p with
  | xH => 1%float
  | xO p' => (2 * of_pos p')%float
  | xI p' => (2 * of_pos p' + 1)%float
  end.

Definition of_Z (z : Z) : float :=
  match z with
  | Z0 => 0%float
  | Zpos p => of_pos p
  | Zneg p => (- of_pos p)%float
  end.

(** [minutesToMilliseconds(minutes)]. *)
Definition minutesToMilliseconds (minutes : float) : float :=
  if negb (is_finite minutes) then 0%float
  else (minutes * 60 * 1000)%float.

(** What [startNewSession(minutes)] stores in [_remainingMs]; [None] when
    it returns at the warning, before it stores anything. *)
Definition startNewSession_remainingMs (minutes : float) : option float :=
  let ms := minutesToMilliseconds minutes in
  if (ms <=? 0)%float then None else Some ms.

(** [stats[key] || 0] on a mapping from keys to numbers. *)
Definition bucket_or_zero (stats : gmap string float) (key : string) : float :=
  match stats !! key with
  | Some x => if is_nan x || is_zero x then 0%float else x
  | None => 0%float
  end.

(** [addFocusedMilliseconds(deltaMs)] on a mapping from keys to numbers:
    the mapping it leaves in [_stats], and whether it calls [_saveStats]. *)
Definition addFocusedMilliseconds (today : Date) (deltaMs : float)
    (stats : gmap string float) : gmap string float * bool :=
  if negb (is_finite deltaMs) || (deltaMs <=? 0)%float then (stats, false)
  else
    let key := getTodayKey today in
    let prev := bucket_or_zero stats key in
    (<[key := (prev + deltaMs)%float]> stats, true).

(** [getTodayMilliseconds()]. *)
Definition getTodayMilliseconds (today : Date) (stats : gmap string float)
  : float :=
  bucket_or_zero stats (getTodayKey today).

End Binary64.

(** * Properties *)

(** ** Numbers *)

Lemma Qcleb_le (x y : Qc) : Qcleb x y = true <-> (x <= y)%Qc.
Proof. unfold Qcleb, Qcle. apply Qle_bool_iff. Qed.

Lemma Qcltb_lt (x y : Qc) : Qcltb x y = true <-> (x < y)%Qc.
Proof.
  unfold Qcltb. rewrite negb_true_iff, <- not_true_iff_false, Qle_bool_iff.
  unfold Qclt. split; [apply Qnot_le_lt | apply Qlt_not_le].
Qed.

Lemma Qcleb_nle (x y : Qc) : Qcleb x y = false <-> (y < x)%Qc.
Proof.
  rewrite <- Qcltb_lt. unfold Qcltb, Qcleb. symmetry. apply negb_true_iff.
Qed.

(** Goals on [Qc] as goals on [Q], for [lra]. *)
Ltac qc_to_q :=
  repeat progress
    (unfold Qcle, Qclt, Qcplus, Qcminus, Qcopp, Qcmult, Q2Qc in *;
     cbn [this] in *);
  repeat rewrite Qred_correct in *.

Lemma num_ltb_leb (a b : number) : num_ltb a b = true -> num_leb b a = false.
Proof.
  destruct a, b; cbn; try congruence.
  rewrite Qcltb_lt, Qcleb_nle. auto.
Qed.

(** A finite positive number of minutes is a positive number of
    milliseconds; one that is not is none. *)
Lemma minutesToMilliseconds_pos (minutes : number) :
  Number_isFinite minutes = true -> num_ltb (of_Z 0) minutes = true ->
  num_leb (minutesToMilliseconds minutes) (of_Z 0) = false.
Proof.
  destruct minutes as [| | |q]; cbn; try congruence.
  intros _ Hq. apply Qcltb_lt in Hq.
  unfold minutesToMilliseconds; cbn. apply Qcleb_nle.
  qc_to_q. unfold inject_Z in *. lra.
Qed.

Lemma minutesToMilliseconds_rejected (minutes : number) :
  Number_isFinite minutes = false \/ num_leb minutes (of_Z 0) = true ->
  num_leb (minutesToMilliseconds minutes) (of_Z 0) = true.
Proof.
  destruct minutes as [| | |q]; cbn; intros [H|H]; try congruence;
    try reflexivity.
  apply Qcleb_le in H. unfold minutesToMilliseconds; cbn. apply Qcleb_le.
  qc_to_q. unfold inject_Z in *. lra.
Qed.

(** The arithmetic of whole numbers. *)
Lemma num_add_of_Z (a b : Z) : num_add (of_Z a) (of_Z b) = of_Z (a + b).
Proof.
  unfold of_Z. cbn. f_equal. apply Qc_is_canon. qc_to_q.
  rewrite inject_Z_plus. reflexivity.
Qed.

Lemma num_sub_of_Z (a b : Z) : num_sub (of_Z a) (of_Z b) = of_Z (a - b).
Proof.
  unfold of_Z. cbn. f_equal. apply Qc_is_canon. qc_to_q.
  unfold Z.sub. rewrite inject_Z_plus, inject_Z_opp. reflexivity.
Qed.

Lemma num_mul_of_Z (a b : Z) : num_mul (of_Z a) (of_Z b) = of_Z (a * b).
Proof.
  unfold of_Z. cbn. f_equal. apply Qc_is_canon. qc_to_q.
  rewrite inject_Z_mult. reflexivity.
Qed.

Lemma num_leb_of_Z (a b : Z) : num_leb (of_Z a) (of_Z b) = (a <=? b).
Proof.
  unfold of_Z. cbn. apply eq_true_iff_eq.
  rewrite Qcleb_le, Z.leb_le. qc_to_q. rewrite <- Zle_Qle. reflexivity.
Qed.

Lemma num_ltb_of_Z (a b : Z) : num_ltb (of_Z a) (of_Z b) = (a <? b).
Proof.
  unfold of_Z. cbn. apply eq_true_iff_eq.
  rewrite Qcltb_lt, Z.ltb_lt. qc_to_q. rewrite <- Zlt_Qlt. reflexivity.
Qed.


(** Whole minutes in milliseconds. *)
Lemma minutesToMilliseconds_of_Z (z : Z) :
  minutesToMilliseconds (of_Z z) = of_Z (z * 60000).
Proof.
  unfold minutesToMilliseconds. cbn [Number_isFinite of_Z negb].
  fold (of_Z z). rewrite !num_mul_of_Z. f_equal. lia.
Qed.

(** ** The fields a method leaves alone *)

Lemma _updateStatusBar_statsManager m :
  _statsManager (_updateStatusBar m) = _statsManager m.
Proof. unfold _updateStatusBar. destruct (_ && _); reflexivity. Qed.

Lemma _updateStatusBar_timer m : _timer (_updateStatusBar m) = _timer m.
Proof. unfold _updateStatusBar. destruct (_ && _); reflexivity. Qed.

Lemma _updateStatusBar_remainingMs m :
  _remainingMs (_updateStatusBar m) = _remainingMs m.
Proof. unfold _updateStatusBar. destruct (_ && _); reflexivity. Qed.

Lemma _updateStatusBar_running m : _running (_updateStatusBar m) = _running m.
Proof. unfold _updateStatusBar. destruct (_ && _); reflexivity. Qed.

Lemma _updateStatusBar_lastTickTime m :
  _lastTickTime (_updateStatusBar m) = _lastTickTime m.
Proof. unfold _updateStatusBar. destruct (_ && _); reflexivity. Qed.

Create Rewrite HintDb fields.
#[local] Hint Rewrite _updateStatusBar_statsManager _updateStatusBar_timer
  _updateStatusBar_remainingMs _updateStatusBar_running
  _updateStatusBar_lastTickTime : fields.

(** [_stopTimerInternal] clears the interval and the running flag, and the
    remaining time when asked to; it calls [clearInterval] when an interval
    was armed, and nothing else. *)
Lemma _stopTimerInternal_spec resetRemaining m :
  let r := _stopTimerInternal resetRemaining m in
  _statsManager r.1 = _statsManager m
  /\ _timer r.1 = None
  /\ _remainingMs r.1 = (if resetRemaining then of_Z 0 else _remainingMs m)
  /\ _running r.1 = false
  /\ _lastTickTime r.1 = _lastTickTime m
  /\ r.2 = match _timer m with Some t => [ClearInterval t] | None => [] end.
Proof.
  unfold _stopTimerInternal.
  destruct (_timer m) eqn:Ht, resetRemaining; cbn;
    autorewrite with fields; cbn; rewrite ?Ht; auto 10.
Qed.

Lemma _onTick_not_running now env m :
  _running m = false -> _onTick now env m = (m, []).
Proof. intros H. unfold _onTick. rewrite H. reflexivity. Qed.

Lemma togglePauseOrResume_running now m :
  _running m = true ->
  togglePauseOrResume now m = (_updateStatusBar (set_running false m), []).
Proof.
  intros H. unfold togglePauseOrResume. rewrite H, andb_false_r. reflexivity.
Qed.

Lemma togglePauseOrResume_paused now m :
  _running m = false -> num_leb (_remainingMs m) (of_Z 0) = false ->
  togglePauseOrResume now m
  = (_updateStatusBar (set_lastTickTime (of_Z now) (set_running true m)), []).
Proof. intros H1 H2. unfold togglePauseOrResume. rewrite H1, H2. reflexivity. Qed.

(** ** The tick of a timer that does not run *)

(** C9: a tick that finds the timer not running (idle, paused, finished or
    stopped) changes no field of the manager and calls nothing. *)
Theorem tick_not_running_noop (now : Z) (env : finish_env)
    (m : FocusSessionManager) :
  _running m = false -> _onTick now env m = (m, []).
Proof.
  intros Hidle. unfold _onTick.
  destruct (_running m); [discriminate Hidle | reflexivity].
Qed.

Lemma tick_not_running_noop_paused :
  let paused := (togglePauseOrResume 5000 running0).1 in
  _running paused = false
  /\ _onTick 7000 (env0 7000) paused = (paused, []).
Proof.
  split; [reflexivity | apply (tick_not_running_noop 7000); reflexivity].
Defined.

(** ** Pause and resume *)

(** C8: from a running timer with a positive remaining time, two calls of
    [togglePauseOrResume] with no tick between them pause the timer and
    then leave it running again, with the same remaining time. *)
Theorem pause_resume_round_trip (now1 now2 : Z) (m : FocusSessionManager) :
  _running m = true -> num_lt (of_Z 0) (_remainingMs m) ->
  let paused := (togglePauseOrResume now1 m).1 in
  let resumed := (togglePauseOrResume now2 paused).1 in
  _running paused = false /\ _remainingMs paused = _remainingMs m
  /\ _running resumed = true /\ _remainingMs resumed = _remainingMs m
  /\ _lastTickTime resumed = of_Z now2.
Proof.
  intros Hrun Hpos paused resumed. apply num_ltb_leb in Hpos.
  assert (Hp : paused = _updateStatusBar (set_running false m)).
  { subst paused. rewrite togglePauseOrResume_running by done. reflexivity. }
  assert (Hp1 : _running paused = false /\ _remainingMs paused = _remainingMs m).
  { rewrite Hp. autorewrite with fields. auto. }
  destruct Hp1 as [Hp1 Hp2].
  subst resumed. rewrite togglePauseOrResume_paused by congruence.
  cbn [fst]. autorewrite with fields. cbn. auto.
Qed.

Lemma pause_resume_round_trip_one_minute :
  _running running0 = true /\ num_lt (of_Z 0) (_remainingMs running0)
  /\ _remainingMs
       (togglePauseOrResume 9000 (togglePauseOrResume 5000 running0).1).1
     = _remainingMs running0.
Proof.
  split; [reflexivity | split; [reflexivity |]].
  apply (pause_resume_round_trip 5000 9000 running0); reflexivity.
Defined.

(** ** Starting a session *)


(** On the whole numbers of minutes that the input box accepts, 1 to 480,
    the product is exact. *)
Lemma whole_minutes_are_exact :
  forallb
    (fun z =>
       match Binary64.startNewSession_remainingMs (Binary64.of_Z z) with
       | Some ms => (ms =? Binary64.of_Z (z * 60000))%float
       | None => false
       end)
    (seqZ 1 480) = true.
Proof. vm_compute. reflexivity. Qed.



(** C3: for a number of minutes that is not finite, or not positive,
    [startNewSession] leaves every field of the manager as it was and only
    shows the warning. *)
Theorem startNewSession_rejects (now : Z) (minutes : number)
    (m : FocusSessionManager) :
  Number_isFinite minutes = false \/ num_le minutes (of_Z 0) ->
  startNewSession now minutes m = (m, [ShowWarningMessage MsgInvalidDuration]).
Proof.
  intros H. unfold startNewSession.
  rewrite (minutesToMilliseconds_rejected minutes H). reflexivity.
Qed.

Lemma startNewSession_rejects_samples :
  startNewSession 42 NaN running0
    = (running0, [ShowWarningMessage MsgInvalidDuration])
  /\ startNewSession 42 (of_Z (-5)) running0
    = (running0, [ShowWarningMessage MsgInvalidDuration]).
Proof.
  split.
  - apply (startNewSession_rejects 42 NaN running0). left. reflexivity.
  - apply (startNewSession_rejects 42 (of_Z (-5)) running0). right. reflexivity.
Defined.

(** ** Stopping a session *)

Lemma updates_app (c1 c2 : list host_call) :
  updates (c1 ++ c2) = updates c1 ++ updates c2.
Proof. unfold updates. apply omap_app. Qed.

Lemma _stopTimerInternal_updates resetRemaining m :
  updates (_stopTimerInternal resetRemaining m).2 = [].
Proof.
  pose proof (_stopTimerInternal_spec resetRemaining m) as H. cbv zeta in H.
  destruct H as (_ & _ & _ & _ & _ & ->). destruct (_timer m); reflexivity.
Qed.

(** What a step leaves of the statistics, when it is not a tick that
    finishes the session. *)
Lemma step_keeps_statistics (e : event) (m : FocusSessionManager) :
  (_statsManager (step e m).1 = _statsManager m /\ updates (step e m).2 = [])
  \/ (exists now env, e = Tick now env /\ _running m = true
        /\ num_le (num_sub (_remainingMs m)
                     (num_sub (of_Z now) (_lastTickTime m))) (of_Z 0)).
Proof.
  destruct e as [now minutes|now env|now|showMessage|]; cbn [step].
  - left. unfold startNewSession.
    destruct (num_leb _ _); [auto |].
    pose proof (_stopTimerInternal_spec false m) as H. cbv zeta in H.
    pose proof (_stopTimerInternal_updates false m) as Hu.
    destruct (_stopTimerInternal false m) as [m1 calls]. cbn [fst snd] in *.
    destruct H as (H & _). cbn. autorewrite with fields. cbn.
    rewrite updates_app, Hu. auto.
  - unfold _onTick. destruct (_running m) eqn:Hrun; cbn [negb]; [| auto].
    cbn [_remainingMs set_remainingMs _lastTickTime set_lastTickTime].
    destruct (num_leb _ _) eqn:Hle.
    + right. exists now, env. auto.
    + left. cbn. autorewrite with fields. auto.
  - left. unfold togglePauseOrResume.
    destruct (_ && _); [auto |].
    destruct (_running m); cbn; autorewrite with fields; auto.
  - left. unfold stopSession.
    pose proof (_stopTimerInternal_spec true m) as H. cbv zeta in H.
    pose proof (_stopTimerInternal_updates true m) as Hu.
    destruct (_stopTimerInternal true m) as [m1 calls]. cbn [fst snd] in *.
    destruct H as (H & _). rewrite updates_app, Hu.
    destruct showMessage; auto.
  - left. unfold dispose.
    pose proof (_stopTimerInternal_spec false m) as H. cbv zeta in H.
    pose proof (_stopTimerInternal_updates false m) as Hu.
    destruct (_stopTimerInternal false m) as [m1 calls]. cbn [fst snd] in *.
    destruct H as (H & _). auto.
Qed.

(** C7: [stopSession], from any manager and whatever [showMessage] is,
    leaves the statistics manager as it was (the mapping and the store) and
    issues no update of the store; and, of all the events, only a tick of a
    running session that brings the remaining time to zero or below can
    change the statistics. *)
Theorem stopSession_keeps_statistics (showMessage : bool)
    (m : FocusSessionManager) :
  (_statsManager (stopSession showMessage m).1 = _statsManager m
   /\ updates (stopSession showMessage m).2 = [])
  /\ forall e : event,
      (_statsManager (step e m).1 = _statsManager m
       /\ updates (step e m).2 = [])
      \/ (exists now env, e = Tick now env /\ _running m = true
            /\ num_le (num_sub (_remainingMs m)
                         (num_sub (of_Z now) (_lastTickTime m))) (of_Z 0)).
Proof.
  split; [| intros e; apply step_keeps_statistics].
  destruct (step_keeps_statistics (Stop showMessage) m) as [H|H]; [exact H |].
  destruct H as (now & env & H & _). discriminate H.
Qed.

(** ** The statistics *)

Lemma js_or_number (v : jsval) (n : number) :
  js_or v (JNum (of_Z 0)) = JNum n -> n <> NaN.
Proof.
  unfold js_or. destruct (truthy v) eqn:Ht.
  - intros ->. destruct n; cbn in Ht; congruence.
  - intros [= <-]. discriminate.
Qed.

Lemma falsy_number (n : number) :
  truthy (JNum n) = false -> n <> NaN -> n = of_Z 0.
Proof.
  destruct n as [| | |q]; cbn; try congruence.
  intros Hq _. apply negb_false_iff, Qeq_bool_iff in Hq.
  unfold of_Z. f_equal. apply Qc_is_canon. exact Hq.
Qed.

Lemma js_or_idem (n : number) :
  n <> NaN -> js_or (JNum n) (JNum (of_Z 0)) = JNum n.
Proof.
  intros Hn. unfold js_or. destruct (truthy (JNum n)) eqn:Ht; [reflexivity |].
  f_equal. symmetry. apply falsy_number; assumption.
Qed.

Lemma num_add_finite_not_nan (n d : number) :
  n <> NaN -> Number_isFinite d = true -> num_add n d <> NaN.
Proof. destruct n, d; cbn; congruence. Qed.

(** An addition that is made: the new manager, the update it issues, and
    the value it leaves at today's key. *)
Lemma addFocusedMilliseconds_adds today deltaMs sm :
  Number_isFinite deltaMs = true -> num_lt (of_Z 0) deltaMs ->
  let key := getTodayKey today in
  let stats' :=
    set_prop (_stats sm) key (js_plus (getTodayMilliseconds today sm) deltaMs) in
  addFocusedMilliseconds today deltaMs sm
  = ({| _globalState :=
          <[STORAGE_KEY_STATS := JObj stats']> (_globalState sm);
        _stats := stats' |},
     [MementoUpdate STORAGE_KEY_STATS (JObj stats')],
     UpdateThenable).
Proof.
  intros Hfin Hpos. apply num_ltb_leb in Hpos.
  unfold addFocusedMilliseconds. rewrite Hfin, Hpos. reflexivity.
Qed.

Lemma getTodayMilliseconds_added today today' deltaMs sm n :
  Number_isFinite deltaMs = true -> num_lt (of_Z 0) deltaMs ->
  getTodayKey today' = getTodayKey today ->
  getTodayMilliseconds today sm = JNum n ->
  getTodayMilliseconds today (addFocusedMilliseconds today' deltaMs sm).1.1
  = JNum (num_add n deltaMs).
Proof.
  intros Hfin Hpos Hkey Hn.
  rewrite addFocusedMilliseconds_adds by assumption. cbn [fst].
  unfold getTodayMilliseconds at 1. cbn [_stats].
  unfold get_prop, set_prop. cbn [props]. rewrite Hkey, lookup_insert_eq.
  cbn [default].
  replace (getTodayMilliseconds today' sm) with (JNum n)
    by (rewrite <- Hn; unfold getTodayMilliseconds; rewrite Hkey; reflexivity).
  cbn [js_plus]. apply js_or_idem, num_add_finite_not_nan; [| assumption].
  exact (js_or_number _ _ Hn).
Qed.

(** C10: an addition of a finite positive delta changes today's bucket
    only: the value at every other key, present or absent, is what it was,
    so the keys of the mapping are the old ones and today's. *)
Theorem addFocusedMilliseconds_frame (today : Date) (deltaMs : number)
    (sm : StatsManager) :
  Number_isFinite deltaMs = true -> num_lt (of_Z 0) deltaMs ->
  let stats' := _stats (addFocusedMilliseconds today deltaMs sm).1.1 in
  (forall k : string, k <> getTodayKey today ->
     props stats' !! k = props (_stats sm) !! k)
  /\ dom (props stats') = {[ getTodayKey today ]} ∪ dom (props (_stats sm))
  /\ isArray stats' = isArray (_stats sm).
Proof.
  intros Hfin Hpos stats'. subst stats'.
  rewrite addFocusedMilliseconds_adds by assumption. cbn.
  split; [| split; [| reflexivity]].
  - intros k Hk. apply lookup_insert_ne. congruence.
  - apply dom_insert_L.
Qed.

Lemma addFocusedMilliseconds_frame_sample :
  props (_stats (addFocusedMilliseconds today0 (of_Z 1000) stats0).1.1)
    !! "2026-11-01"
  = props (_stats stats0) !! "2026-11-01".
Proof.
  apply (addFocusedMilliseconds_frame today0 (of_Z 1000) stats0);
    [reflexivity | reflexivity | discriminate].
Defined.

(** ** Loading the statistics *)

Lemma Memento_get_singleton (key : string) (v : jsval) :
  Memento_get {[ key := v ]} key = v.
Proof. unfold Memento_get. rewrite lookup_singleton_eq. reflexivity. Qed.

(** What passes the test of [_loadStats] is an object. *)
Lemma _loadStats_object (g : gmap string jsval) :
  let raw := Memento_get g STORAGE_KEY_STATS in
  truthy raw = true -> typeof raw = "object" -> JObj (_loadStats g) = raw.
Proof.
  intros raw Ht Hty. unfold _loadStats. fold raw. rewrite Ht, Hty. cbn.
  destruct raw; try discriminate; reflexivity.
Qed.

(** C6, as the specification states it, fails: a stored object that maps a
    day to a text is not a well-formed mapping, and it is loaded as it is. *)
Lemma loadStats_keeps_malformed_payload :
  let g : gmap string jsval := {[ STORAGE_KEY_STATS := malformed_payload ]} in
  well_formed_mapping (Memento_get g STORAGE_KEY_STATS) = false
  /\ JObj (_loadStats g) = malformed_payload
  /\ _loadStats g <> empty_object.
Proof.
  cbv zeta. split; [| split].
  - vm_compute. reflexivity.
  - generalize (_loadStats_object {[ STORAGE_KEY_STATS := malformed_payload ]}).
    cbv zeta. rewrite Memento_get_singleton. intros H. apply H; reflexivity.
  - intros H.
    assert (H1 : props (_loadStats {[ STORAGE_KEY_STATS := malformed_payload ]})
                   !! "2026-11-02" = props empty_object !! "2026-11-02")
      by (rewrite H; reflexivity).
    vm_compute in H1. discriminate H1.
Qed.

(** C6, amended: [_loadStats] gives the empty mapping when nothing is
    stored, and when what is stored is falsy or is not of type object; what
    is stored otherwise, an object or an array, is the mapping as it is,
    whatever its keys and values.  It is a total function: loading never
    fails. *)
Theorem loadStats_empty_or_stored (g : gmap string jsval) :
  let raw := Memento_get g STORAGE_KEY_STATS in
  (g !! STORAGE_KEY_STATS = None -> _loadStats g = empty_object)
  /\ (truthy raw = false \/ typeof raw <> "object" ->
      _loadStats g = empty_object)
  /\ (truthy raw = true -> typeof raw = "object" ->
      JObj (_loadStats g) = raw).
Proof.
  intros raw. split; [| split].
  - intros H. unfold _loadStats, Memento_get. rewrite H. reflexivity.
  - intros [H | H]; unfold _loadStats; fold raw.
    + rewrite H. reflexivity.
    + destruct (String.eqb_spec (typeof raw) "object") as [E | _];
        [contradiction |].
      rewrite orb_true_r. reflexivity.
  - apply _loadStats_object.
Qed.

Lemma loadStats_empty_or_stored_samples :
  _loadStats ∅ = empty_object
  /\ _loadStats {[ STORAGE_KEY_STATS := JStr "25" ]} = empty_object
  /\ JObj (_loadStats {[ STORAGE_KEY_STATS := malformed_payload ]})
     = malformed_payload.
Proof.
  split; [| split].
  - apply (proj1 (loadStats_empty_or_stored ∅)). apply lookup_empty.
  - apply (proj1 (proj2 (loadStats_empty_or_stored
                           {[ STORAGE_KEY_STATS := JStr "25" ]}))).
    right. rewrite Memento_get_singleton. discriminate.
  - generalize (loadStats_empty_or_stored
                  {[ STORAGE_KEY_STATS := malformed_payload ]}).
    cbv zeta. rewrite Memento_get_singleton.
    intros (_ & _ & H). apply H; reflexivity.
Defined.

(** ** The invariant of the timer *)

Lemma timer_ok_iff (m : FocusSessionManager) :
  timer_ok m = true <->
  exists r t : Qc,
    _remainingMs m = Fin r /\ _lastTickTime m = Fin t
    /\ (0 <= r)%Qc /\ (_running m = true -> (0 < r)%Qc).
Proof.
  unfold timer_ok. rewrite !andb_true_iff. split.
  - intros [[[H1 H2] H3] H4].
    destruct (_remainingMs m) as [| | |r]; try discriminate.
    destruct (_lastTickTime m) as [| | |t]; try discriminate.
    exists r, t. cbn in H2. apply Qcleb_le in H2.
    repeat split; [exact H2 |].
    intros Hrun. rewrite Hrun in H4. cbn in H4. apply Qcltb_lt in H4. exact H4.
  - intros (r & t & -> & -> & Hr & Hrun). cbn.
    repeat split; [apply Qcleb_le; exact Hr |].
    destruct (_running m); [| reflexivity]. cbn. apply Qcltb_lt. auto.
Qed.

(** What [_finishSession] leaves in the fields, and what it hands to the
    statistics. *)
Lemma _finishSession_spec (env : finish_env) (m : FocusSessionManager) :
  let spentMs :=
    Math_max (of_Z 0)
      (num_add (num_sub (of_Z (finish_now env)) (_lastTickTime m))
         TICK_INTERVAL_MS) in
  let r := _finishSession env m in
  _statsManager r.1
    = (addFocusedMilliseconds (finish_today env) spentMs (_statsManager m)).1.1
  /\ _timer r.1 = None
  /\ _remainingMs r.1 = _remainingMs m
  /\ _running r.1 = false
  /\ _lastTickTime r.1 = _lastTickTime m.
Proof.
  intros spentMs r. subst r. unfold _finishSession. fold spentMs.
  pose proof (_stopTimerInternal_spec false (set_running false m)) as H.
  cbv zeta in H.
  destruct (_stopTimerInternal false (set_running false m)) as [m1 calls].
  cbn [fst snd] in H. destruct H as (H1 & H2 & H3 & H4 & H5 & _).
  cbn in H1, H3, H5. cbn [_statsManager set_text set_statusBarItem].
  rewrite H1.
  destruct (addFocusedMilliseconds _ _ _) as [[sm saved] p]. cbn. auto.
Qed.

(** The tick of a running timer, field by field: [left] is the remaining
    time less the time since the last tick. *)
Lemma _onTick_running (now : Z) (env : finish_env) (m : FocusSessionManager) :
  _running m = true ->
  let left :=
    num_sub (_remainingMs m) (num_sub (of_Z now) (_lastTickTime m)) in
  let spentMs :=
    Math_max (of_Z 0)
      (num_add (num_sub (of_Z (finish_now env)) (of_Z now)) TICK_INTERVAL_MS) in
  let m' := (_onTick now env m).1 in
  _lastTickTime m' = of_Z now
  /\ _remainingMs m' = (if num_leb left (of_Z 0) then of_Z 0 else left)
  /\ _running m' = negb (num_leb left (of_Z 0))
  /\ _statsManager m'
     = (if num_leb left (of_Z 0)
        then (addFocusedMilliseconds (finish_today env) spentMs
                (_statsManager m)).1.1
        else _statsManager m).
Proof.
  intros Hrun left spentMs m'. subst m'. unfold _onTick. rewrite Hrun.
  cbn [negb _remainingMs set_remainingMs _lastTickTime set_lastTickTime].
  fold left. destruct (num_leb left (of_Z 0)).
  - match goal with |- context [_finishSession env ?x] =>
      pose proof (_finishSession_spec env x) as H end.
    cbv zeta in H. destruct H as (H1 & _ & H3 & H4 & H5).
    rewrite H1, H3, H4, H5. autorewrite with fields. cbn. auto.
  - cbn. autorewrite with fields. cbn. auto.
Qed.

Lemma timer_ok_step (e : event) (m : FocusSessionManager) :
  timer_ok m = true -> timer_ok (step e m).1 = true.
Proof.
  intros Hok. pose proof Hok as Hok'.
  apply timer_ok_iff in Hok' as (r & t & Hr & Ht & Hr0 & Hrun).
  destruct e as [now minutes|now env|now|showMessage|]; cbn [step].
  - unfold startNewSession.
    destruct (num_leb (minutesToMilliseconds minutes) (of_Z 0)) eqn:Hms;
      [exact Hok |].
    destruct (_stopTimerInternal false m) as [m1 calls].
    apply timer_ok_iff. cbn. autorewrite with fields. cbn.
    unfold minutesToMilliseconds in *.
    destruct minutes as [| | |q]; cbn in Hms; try discriminate.
    cbn. apply Qcleb_nle in Hms. eexists _, _. repeat split; try reflexivity.
    + apply Qclt_le_weak. exact Hms.
    + intros _. exact Hms.
  - destruct (_running m) eqn:Hrunning;
      [| rewrite (_onTick_not_running now env m Hrunning); exact Hok].
    pose proof (_onTick_running now env m Hrunning) as H. cbv zeta in H.
    destruct H as (H1 & H2 & H3 & _). rewrite Hr, Ht in H2, H3.
    cbn [num_sub of_Z] in H2, H3.
    apply timer_ok_iff. rewrite H1, H2, H3.
    destruct (num_leb _ _) eqn:Hle.
    + eexists _, _. repeat split; try reflexivity. discriminate.
    + cbn in Hle. apply Qcleb_nle in Hle.
      eexists _, _. repeat split; try reflexivity.
      * apply Qclt_le_weak. exact Hle.
      * intros _. exact Hle.
  - unfold togglePauseOrResume. rewrite Hr.
    destruct (num_leb (Fin r) (of_Z 0) && negb (_running m)) eqn:Hidle;
      [exact Hok |].
    destruct (_running m) eqn:Hrunning; cbn [fst]; apply timer_ok_iff;
      autorewrite with fields; cbn; rewrite ?Hr, ?Ht.
    + exists r, t. repeat split; auto; discriminate.
    + rewrite andb_true_r in Hidle. cbn in Hidle. apply Qcleb_nle in Hidle.
      eexists _, _. repeat split; try reflexivity; auto.
  - unfold stopSession.
    pose proof (_stopTimerInternal_spec true m) as H. cbv zeta in H.
    destruct (_stopTimerInternal true m) as [m1 calls]. cbn [fst snd] in *.
    destruct H as (_ & _ & H3 & H4 & H5 & _).
    apply timer_ok_iff. rewrite H3, H4, H5, Ht. eexists _, _.
    repeat split; try reflexivity. discriminate.
  - unfold dispose.
    pose proof (_stopTimerInternal_spec false m) as H. cbv zeta in H.
    destruct (_stopTimerInternal false m) as [m1 calls]. cbn [fst snd] in *.
    destruct H as (_ & _ & H3 & H4 & H5 & _).
    apply timer_ok_iff. cbn. rewrite H3, H4, H5, Hr, Ht. exists r, t.
    repeat split; auto; discriminate.
Qed.

Lemma reachable_timer_ok (m : FocusSessionManager) :
  reachable m -> timer_ok m = true.
Proof.
  induction 1 as [g | e m _ IH]; [reflexivity | apply timer_ok_step, IH].
Qed.

(** ** Ticks *)

(** One tick of a reachable timer, under a clock that has not gone back. *)
Lemma _onTick_monotone (now : Z) (env : finish_env) (m : FocusSessionManager) :
  timer_ok m = true -> num_le (_lastTickTime m) (of_Z now) ->
  let m' := (_onTick now env m).1 in
  num_le (_remainingMs m') (_remainingMs m)
  /\ num_le (of_Z 0) (_remainingMs m')
  /\ num_le (_lastTickTime m') (of_Z now).
Proof.
  intros Hok Hclock m'. subst m'.
  apply timer_ok_iff in Hok as (r & t & Hr & Ht & Hr0 & Hrun).
  unfold num_le in *.
  destruct (_running m) eqn:Hrunning.
  - pose proof (_onTick_running now env m Hrunning) as H. cbv zeta in H.
    destruct H as (H1 & H2 & _). rewrite H1, H2, Hr. rewrite Ht in Hclock |- *.
    cbn in Hclock. apply Qcleb_le in Hclock.
    unfold of_Z. cbn [num_sub num_leb].
    destruct (Qcleb (r - (Q2Qc (inject_Z now) - t)) (Q2Qc (inject_Z 0)))
      eqn:Hle; cbn [num_leb].
    + split; [| split]; apply Qcleb_le;
        [exact Hr0 | apply Qcle_refl | apply Qcle_refl].
    + apply Qcleb_nle in Hle. split; [| split]; apply Qcleb_le.
      * qc_to_q. lra.
      * apply Qclt_le_weak. exact Hle.
      * apply Qcle_refl.
  - rewrite (_onTick_not_running now env m Hrunning). cbn [fst].
    rewrite Hr. split; [| split]; [| | exact Hclock]; cbn; apply Qcleb_le;
      [apply Qcle_refl | exact Hr0].
Qed.

(** C4: under a clock that never goes back, the remaining time of a
    reachable timer never grows from one tick to the next, and after each
    tick it is not negative. *)
Theorem ticks_non_increasing (ticks : list (Z * finish_env))
    (m : FocusSessionManager) :
  reachable m -> clock_non_decreasing ticks m ->
  non_increasing (_remainingMs m) (tick_trace ticks m)
  /\ Forall (num_le (of_Z 0)) (tick_trace ticks m).
Proof.
  intros Hreach. apply reachable_timer_ok in Hreach. revert m Hreach.
  induction ticks as [| [now env] rest IH]; intros m Hok Hclock.
  - cbn. auto.
  - destruct Hclock as [Hnow Hrest]. cbn [tick_trace].
    pose proof (_onTick_monotone now env m Hok Hnow) as H. cbv zeta in H.
    destruct H as (H1 & H2 & _).
    pose proof (timer_ok_step (Tick now env) m Hok) as Hok'. cbn [step] in Hok'.
    destruct (IH _ Hok' Hrest) as [IH1 IH2].
    split; [split; assumption | constructor; assumption].
Qed.

Lemma ticks_non_increasing_one_minute :
  let ticks := [(1000, env0 1000); (2500, env0 2500); (2500, env0 2500)] in
  reachable running0 /\ clock_non_decreasing ticks running0
  /\ non_increasing (_remainingMs running0) (tick_trace ticks running0)
  /\ Forall (num_le (of_Z 0)) (tick_trace ticks running0).
Proof.
  assert (Hreach : reachable running0)
    by exact (reachable_step (Start 0 (of_Z 1)) idle0 (reachable_new ∅)).
  assert (Hclock : clock_non_decreasing
                     [(1000, env0 1000); (2500, env0 2500); (2500, env0 2500)]
                     running0)
    by (cbn; repeat split; reflexivity).
  split; [exact Hreach | split; [exact Hclock |]].
  exact (ticks_non_increasing _ running0 Hreach Hclock).
Defined.

(** ** The end of a session *)

(** A tick that finishes the session while the clock stands still adds the
    tick interval to today's milliseconds, whatever the session lasted. *)
Lemma finishing_tick_adds_tick_interval (now : Z) (env : finish_env)
    (m : FocusSessionManager) (n : number) :
  _running m = true ->
  num_le (num_sub (_remainingMs m) (num_sub (of_Z now) (_lastTickTime m)))
    (of_Z 0) ->
  finish_now env = now ->
  getTodayMilliseconds (finish_today env) (_statsManager m) = JNum n ->
  getTodayMilliseconds (finish_today env) (_statsManager (_onTick now env m).1)
  = JNum (num_add n TICK_INTERVAL_MS).
Proof.
  intros Hrun Hle Hnow Hn.
  pose proof (_onTick_running now env m Hrun) as H. cbv zeta in H.
  destruct H as (_ & _ & _ & H). rewrite Hle, Hnow in H. rewrite H.
  assert (Hspent : Math_max (of_Z 0)
                     (num_add (num_sub (of_Z now) (of_Z now)) TICK_INTERVAL_MS)
                   = TICK_INTERVAL_MS).
  { assert (E : num_add (num_sub (of_Z now) (of_Z now)) TICK_INTERVAL_MS
                = TICK_INTERVAL_MS).
    { unfold TICK_INTERVAL_MS, of_Z. cbn. f_equal. apply Qc_is_canon.
      qc_to_q. ring. }
    rewrite E. reflexivity. }
  rewrite Hspent. apply getTodayMilliseconds_added; auto; reflexivity.
Qed.

(** C1 fails on the code: a session of one minute, started at time 0 and
    ticked once a second until no time remains, ends with 1000 ms for the
    day, where the session lasted 60000 ms: less than 60000 ms by more
    than one tick interval.  The tick stores its reading of
    the clock in [_lastTickTime] before it calls [_finishSession], which
    then measures the time since that reading ([_onTick_running]). *)
Theorem one_minute_session_adds_one_second :
  let r := run (Start 0 (of_Z 1) :: one_minute_of_ticks) idle0 in
  _remainingMs running0 = of_Z 60000
  /\ _remainingMs r.1 = of_Z 0
  /\ _running r.1 = false
  /\ getTodayMilliseconds today0 (_statsManager idle0) = JNum (of_Z 0)
  /\ getTodayMilliseconds today0 (_statsManager r.1) = JNum (of_Z 1000)
  /\ updates r.2 = [JObject false {[ "2026-11-02" := JNum (of_Z 1000) ]}]
  /\ num_lt (of_Z 1000) (num_sub (of_Z 60000) TICK_INTERVAL_MS).
Proof.
  vm_compute. repeat split; reflexivity.
Qed.

(** * Further properties *)

(** ** Stopping and disposing twice *)

(** X1: A second [stopSession] finds nothing to clear and changes no field: it
    returns the manager the first one left, and calls nothing but the
    message it is asked for. *)
Theorem stopSession_idempotent (showMessage showMessage' : bool)
    (m : FocusSessionManager) :
  let stopped := (stopSession showMessage m).1 in
  stopSession showMessage' stopped
  = (stopped,
     if showMessage' then [ShowInformationMessage MsgStopped] else [])
  /\ _timer stopped = None /\ _running stopped = false
  /\ _remainingMs stopped = of_Z 0
  /\ text (_statusBarItem stopped) = TextNotStarted.
Proof.
  destruct m as [sm [t v d] timer r running last].
  destruct timer, showMessage, showMessage'; cbn; auto.
Qed.

(** X2: A second [dispose] changes no field and calls nothing; and after
    [dispose] no interval is held and the timer does not run. *)
Theorem dispose_idempotent (m : FocusSessionManager) :
  let disposed_m := (dispose m).1 in
  dispose disposed_m = (disposed_m, [])
  /\ _timer disposed_m = None /\ _running disposed_m = false
  /\ disposed (_statusBarItem disposed_m) = true
  /\ _remainingMs disposed_m = _remainingMs m.
Proof.
  destruct m as [sm [t v d] timer r running last].
  unfold dispose, _stopTimerInternal, _updateStatusBar.
  destruct timer; cbn; destruct (num_leb r (of_Z 0)) eqn:E; cbn;
    rewrite ?E; cbn; auto.
Qed.

(** ** The interval and the status bar *)

Lemma live_intervals_app (c1 c2 : list host_call) :
  live_intervals (c1 ++ c2) = live_intervals c1 + live_intervals c2.
Proof.
  induction c1 as [| c c1 IH]; [reflexivity |].
  destruct c; cbn [app live_intervals]; lia.
Qed.

Lemma addFocusedMilliseconds_live today deltaMs sm :
  live_intervals (addFocusedMilliseconds today deltaMs sm).1.2 = 0.
Proof.
  unfold addFocusedMilliseconds. destruct (_ || _); reflexivity.
Qed.

Lemma minutesToMilliseconds_finite (minutes : number) :
  exists q : Qc, minutesToMilliseconds minutes = Fin q.
Proof.
  unfold minutesToMilliseconds. destruct minutes; cbn; eauto.
Qed.

Lemma num_leb_false_lt (q : Qc) :
  num_leb (Fin q) (of_Z 0) = false -> num_lt (of_Z 0) (Fin q).
Proof.
  unfold num_lt. cbn. rewrite Qcleb_nle, Qcltb_lt. auto.
Qed.

(** The fields and the calls of [startNewSession] when it starts. *)
Lemma startNewSession_accepted now minutes m :
  num_leb (minutesToMilliseconds minutes) (of_Z 0) = false ->
  let r := startNewSession now minutes m in
  _statsManager r.1 = _statsManager m
  /\ _timer r.1 = Some (Interval TICK_INTERVAL_MS)
  /\ _remainingMs r.1 = minutesToMilliseconds minutes
  /\ _running r.1 = true
  /\ _lastTickTime r.1 = of_Z now
  /\ text (_statusBarItem r.1) = TextFocus (minutesToMilliseconds minutes) true
  /\ disposed (_statusBarItem r.1) = disposed (_statusBarItem m)
  /\ r.2 = match _timer m with Some t => [ClearInterval t] | None => [] end
           ++ [SetInterval TICK_INTERVAL_MS].
Proof.
  intros Hms. destruct m as [sm [t v d] timer r running last].
  unfold startNewSession. rewrite Hms.
  unfold _stopTimerInternal, _updateStatusBar.
  destruct timer; cbn; destruct (num_leb r (of_Z 0)); cbn;
    rewrite Hms; cbn; auto 10.
Qed.

(** The interval, the status bar and the calls of [_finishSession]. *)
Lemma _finishSession_host env m :
  let r := _finishSession env m in
  _timer r.1 = None
  /\ text (_statusBarItem r.1) = TextFinished
  /\ disposed (_statusBarItem r.1) = disposed (_statusBarItem m)
  /\ live_intervals r.2 = - held_intervals m.
Proof.
  destruct m as [sm [t v d] timer r running last].
  unfold _finishSession, _stopTimerInternal, _updateStatusBar, held_intervals.
  destruct timer; cbn -[addFocusedMilliseconds num_leb];
    destruct (num_leb r (of_Z 0)); cbn -[addFocusedMilliseconds];
    match goal with |- context [addFocusedMilliseconds ?a ?b ?c] =>
      pose proof (addFocusedMilliseconds_live a b c) as Hlive;
      destruct (addFocusedMilliseconds a b c) as [[sm' saved] p]
    end; cbn in *; rewrite ?live_intervals_app, ?Hlive; cbn;
    destruct (fulfilled p (update_ok env)); auto.
Qed.

Lemma _onTick_running_eq now env m :
  _running m = true ->
  let left :=
    num_sub (_remainingMs m) (num_sub (of_Z now) (_lastTickTime m)) in
  let m1 := set_remainingMs left (set_lastTickTime (of_Z now) m) in
  _onTick now env m
  = if num_leb left (of_Z 0)
    then _finishSession env (_updateStatusBar (set_remainingMs (of_Z 0) m1))
    else (_updateStatusBar m1, []).
Proof. intros H. unfold _onTick. rewrite H. reflexivity. Qed.

Lemma _updateStatusBar_display m :
  text (_statusBarItem (_updateStatusBar m)) = display_of m
  /\ disposed (_statusBarItem (_updateStatusBar m))
     = disposed (_statusBarItem m).
Proof.
  unfold _updateStatusBar, display_of. destruct (_ && _); auto.
Qed.

Lemma display_of_updateStatusBar m :
  display_of (_updateStatusBar m) = display_of m.
Proof. unfold display_of. autorewrite with fields. reflexivity. Qed.

Lemma _stopTimerInternal_display resetRemaining m :
  text (_statusBarItem (_stopTimerInternal resetRemaining m).1)
  = display_of (_stopTimerInternal resetRemaining m).1.
Proof.
  unfold _stopTimerInternal. destruct (_timer m); cbn [fst];
    rewrite (proj1 (_updateStatusBar_display _)), display_of_updateStatusBar;
    reflexivity.
Qed.

(** The interval, the status bar and the calls of a tick that finds the
    timer running. *)
Lemma _onTick_running_host now env m :
  _running m = true ->
  let left :=
    num_sub (_remainingMs m) (num_sub (of_Z now) (_lastTickTime m)) in
  let r := _onTick now env m in
  _timer r.1 = (if num_leb left (of_Z 0) then None else _timer m)
  /\ text (_statusBarItem r.1)
     = (if num_leb left (of_Z 0) then TextFinished else TextFocus left true)
  /\ disposed (_statusBarItem r.1) = disposed (_statusBarItem m)
  /\ live_intervals r.2
     = (if num_leb left (of_Z 0) then - held_intervals m else 0).
Proof.
  intros Hrun left r. subst r.
  rewrite (_onTick_running_eq now env m Hrun). cbv zeta. fold left.
  destruct (num_leb left (of_Z 0)) eqn:Hle.
  - match goal with |- context [_finishSession env ?x] =>
      pose proof (_finishSession_host env x) as H;
      pose proof (_updateStatusBar_display
                    (set_remainingMs (of_Z 0)
                       (set_remainingMs left (set_lastTickTime (of_Z now) m))))
        as [_ Hd]
    end.
    cbv zeta in H. destruct H as (H1 & H2 & H3 & H4).
    rewrite H1, H2, H3, H4, Hd. unfold held_intervals.
    autorewrite with fields. cbn. auto.
  - cbn [fst snd live_intervals].
    destruct (_updateStatusBar_display
                (set_remainingMs left (set_lastTickTime (of_Z now) m)))
      as [Ht Hd].
    rewrite Ht, Hd. autorewrite with fields. unfold display_of. cbn.
    rewrite Hle, Hrun. cbn. auto.
Qed.

Lemma step_disposed (e : event) (m : FocusSessionManager) :
  disposed (_statusBarItem (step e m).1)
  = match e with Dispose => true | _ => disposed (_statusBarItem m) end.
Proof.
  destruct e as [now minutes|now env|now|showMessage|]; cbn [step].
  - destruct (num_leb (minutesToMilliseconds minutes) (of_Z 0)) eqn:Hms.
    + unfold startNewSession. rewrite Hms. reflexivity.
    + apply (startNewSession_accepted now minutes m Hms).
  - destruct (_running m) eqn:Hrun.
    + apply (_onTick_running_host now env m Hrun).
    + rewrite (_onTick_not_running now env m Hrun). reflexivity.
  - destruct m as [sm [t v d] timer r running last].
    unfold togglePauseOrResume, _updateStatusBar. cbn.
    destruct (num_leb r (of_Z 0)), running; reflexivity.
  - destruct m as [sm [t v d] timer r running last].
    unfold stopSession, _stopTimerInternal, _updateStatusBar.
    destruct timer; reflexivity.
  - destruct m as [sm [t v d] timer r running last].
    unfold dispose, _stopTimerInternal. destruct timer; reflexivity.
Qed.

Lemma step_live_intervals (e : event) (m : FocusSessionManager) :
  live_intervals (step e m).2 = held_intervals (step e m).1 - held_intervals m.
Proof.
  destruct e as [now minutes|now env|now|showMessage|]; cbn [step].
  - destruct (num_leb (minutesToMilliseconds minutes) (of_Z 0)) eqn:Hms.
    + unfold startNewSession. rewrite Hms. cbn. lia.
    + pose proof (startNewSession_accepted now minutes m Hms) as H.
      cbv zeta in H. destruct H as (_ & Ht & _ & _ & _ & _ & _ & Hc).
      rewrite Hc, live_intervals_app. unfold held_intervals. rewrite Ht.
      destruct (_timer m); cbn; lia.
  - destruct (_running m) eqn:Hrun.
    + pose proof (_onTick_running_host now env m Hrun) as H. cbv zeta in H.
      destruct H as (Ht & _ & _ & Hc). rewrite Hc. unfold held_intervals.
      rewrite Ht. destruct (num_leb _ _), (_timer m); lia.
    + rewrite (_onTick_not_running now env m Hrun). cbn. lia.
  - unfold togglePauseOrResume. destruct (_ && _); [cbn; lia |].
    destruct (_running m); cbn [fst snd]; unfold held_intervals;
      autorewrite with fields; cbn; lia.
  - unfold stopSession.
    pose proof (_stopTimerInternal_spec true m) as H. cbv zeta in H.
    destruct (_stopTimerInternal true m) as [m1 calls]. cbn [fst snd] in *.
    destruct H as (_ & Ht & _ & _ & _ & Hc).
    rewrite live_intervals_app, Hc. unfold held_intervals. rewrite Ht.
    destruct (_timer m), showMessage; cbn; lia.
  - unfold dispose.
    pose proof (_stopTimerInternal_spec false m) as H. cbv zeta in H.
    destruct (_stopTimerInternal false m) as [m1 calls]. cbn [fst snd] in *.
    destruct H as (_ & Ht & _ & _ & _ & Hc).
    rewrite Hc. unfold held_intervals. cbn. rewrite Ht.
    destruct (_timer m); cbn; lia.
Qed.

(** X3: The host holds exactly the intervals the manager does: over any run,
    the intervals set less the intervals cleared are the one interval in
    [_timer] at the end, or none, less what [_timer] held at the start.  So
    a run from a new manager never leaves two intervals alive. *)
Theorem run_live_intervals (es : list event) (m : FocusSessionManager) :
  live_intervals (run es m).2 = held_intervals (run es m).1 - held_intervals m
  /\ (held_intervals (run es m).1 = 0 \/ held_intervals (run es m).1 = 1).
Proof.
  split; [| unfold held_intervals; destruct (_timer _); auto].
  revert m. induction es as [| e es IH]; intros m; cbn [run].
  - cbn. lia.
  - pose proof (step_live_intervals e m) as Hstep.
    destruct (step e m) as [m1 c1]. specialize (IH m1).
    destruct (run es m1) as [m2 c2]. cbn [fst snd] in *.
    rewrite live_intervals_app. lia.
Qed.

(** What a step leaves of a manager that is not disposed of: an interval
    and a positive remaining time, or no interval, no time and no run. *)
Lemma step_session_in_progress (e : event) (m : FocusSessionManager) :
  timer_ok m = true ->
  (_timer m = Some (Interval TICK_INTERVAL_MS)
   /\ num_lt (of_Z 0) (_remainingMs m))
  \/ (_timer m = None /\ _remainingMs m = of_Z 0 /\ _running m = false) ->
  e <> Dispose ->
  (_timer (step e m).1 = Some (Interval TICK_INTERVAL_MS)
   /\ num_lt (of_Z 0) (_remainingMs (step e m).1))
  \/ (_timer (step e m).1 = None /\ _remainingMs (step e m).1 = of_Z 0
      /\ _running (step e m).1 = false).
Proof.
  intros Hok IH Hne.
  destruct e as [now minutes|now env|now|showMessage|]; cbn [step];
    [| | | | contradiction].
  - destruct (num_leb (minutesToMilliseconds minutes) (of_Z 0)) eqn:Hms.
    + unfold startNewSession. rewrite Hms. exact IH.
    + pose proof (startNewSession_accepted now minutes m Hms) as H.
      cbv zeta in H. destruct H as (_ & Ht & Hr & _).
      left. split; [exact Ht |]. rewrite Hr.
      destruct (minutesToMilliseconds_finite minutes) as [q Hq].
      rewrite Hq in Hms |- *. apply num_leb_false_lt, Hms.
  - destruct (_running m) eqn:Hrun;
      [| rewrite (_onTick_not_running now env m Hrun); cbn [fst];
         rewrite ?Hrun; exact IH].
    pose proof (_onTick_running now env m Hrun) as H. cbv zeta in H.
    destruct H as (_ & Hr & Hrunning & _).
    pose proof (_onTick_running_host now env m Hrun) as H. cbv zeta in H.
    destruct H as (Ht & _).
    apply timer_ok_iff in Hok as (r & t & Er & Et & _ & _).
    rewrite Er, Et in Hr, Hrunning, Ht. cbn [num_sub of_Z] in Hr, Hrunning, Ht.
    rewrite Hr, Hrunning, Ht.
    destruct (num_leb _ _) eqn:Hle; [right; repeat split; reflexivity |].
    left. destruct IH as [[IH _] | [_ [_ IH]]]; [| congruence].
    split; [exact IH | apply num_leb_false_lt, Hle].
  - unfold togglePauseOrResume.
    destruct (num_leb (_remainingMs m) (of_Z 0) && negb (_running m)) eqn:Hc;
      [exact IH |].
    destruct IH as [[IH1 IH2] | (_ & IH2 & IH3)].
    + left. destruct (_running m); cbn [fst]; autorewrite with fields; cbn;
        auto.
    + rewrite IH2, IH3 in Hc. discriminate Hc.
  - right. unfold stopSession.
    pose proof (_stopTimerInternal_spec true m) as H. cbv zeta in H.
    destruct (_stopTimerInternal true m) as [m1 calls]. cbn [fst snd] in *.
    destruct H as (_ & Ht & Hr & Hrunning & _). auto.
Qed.

(** X4: While a manager is not disposed of, it holds the interval exactly while
    a session is in progress, running or paused: every reachable manager
    either holds an interval of the tick period and has time remaining, or
    holds none, has no time remaining and does not run. *)
Theorem interval_while_in_progress (m : FocusSessionManager) :
  reachable m -> disposed (_statusBarItem m) = false ->
  (_timer m = Some (Interval TICK_INTERVAL_MS)
   /\ num_lt (of_Z 0) (_remainingMs m))
  \/ (_timer m = None /\ _remainingMs m = of_Z 0 /\ _running m = false).
Proof.
  induction 1 as [g | e m Hreach IH]; [right; auto |].
  rewrite step_disposed. intros Hd.
  assert (Hne : e <> Dispose) by (intros ->; discriminate Hd).
  apply step_session_in_progress; [apply reachable_timer_ok, Hreach | | exact Hne].
  apply IH. destruct e; try exact Hd. contradiction.
Qed.

Lemma interval_while_in_progress_paused :
  let paused := (togglePauseOrResume 5000 running0).1 in
  reachable paused /\ disposed (_statusBarItem paused) = false
  /\ _timer paused = Some (Interval TICK_INTERVAL_MS)
  /\ _running paused = false.
Proof.
  assert (Hreach : reachable (togglePauseOrResume 5000 running0).1)
    by exact (reachable_step (Toggle 5000) _
                (reachable_step (Start 0 (of_Z 1)) _ (reachable_new ∅))).
  split; [exact Hreach | split; [reflexivity |]].
  destruct (interval_while_in_progress _ Hreach eq_refl)
    as [[Ht _] | (Ht & _)]; [| discriminate Ht].
  split; [exact Ht | reflexivity].
Defined.

(** X5: The status bar is never stale: for every reachable manager its text is
    the one [_updateStatusBar] gives for the fields as they are, except for
    the text the item is created with and the text of a finished session,
    both shown only while nothing remains and nothing runs. *)
Theorem status_bar_in_step (m : FocusSessionManager) :
  reachable m ->
  text (_statusBarItem m) = display_of m
  \/ (_remainingMs m = of_Z 0 /\ _running m = false
      /\ (text (_statusBarItem m) = TextInitial
          \/ text (_statusBarItem m) = TextFinished)).
Proof.
  induction 1 as [g | e m Hreach IH]; [right; auto |].
  destruct e as [now minutes|now env|now|showMessage|]; cbn [step].
  - destruct (num_leb (minutesToMilliseconds minutes) (of_Z 0)) eqn:Hms.
    + unfold startNewSession. rewrite Hms. exact IH.
    + pose proof (startNewSession_accepted now minutes m Hms) as H.
      cbv zeta in H. destruct H as (_ & _ & Hr & Hrun & _ & Ht & _).
      left. rewrite Ht. unfold display_of. rewrite Hr, Hrun, andb_false_r.
      reflexivity.
  - destruct (_running m) eqn:Hrun;
      [| rewrite (_onTick_not_running now env m Hrun); cbn [fst];
         rewrite ?Hrun; exact IH].
    pose proof (_onTick_running now env m Hrun) as H. cbv zeta in H.
    destruct H as (_ & Hr & Hrunning & _).
    pose proof (_onTick_running_host now env m Hrun) as H. cbv zeta in H.
    destruct H as (_ & Ht & _).
    rewrite Ht. unfold display_of. rewrite Hr, Hrunning.
    destruct (num_leb _ _) eqn:Hle; [right; auto |].
    left. rewrite Hle. reflexivity.
  - unfold togglePauseOrResume. destruct (_ && _); [exact IH |].
    left. destruct (_running m); cbn [fst];
      rewrite (proj1 (_updateStatusBar_display _)), display_of_updateStatusBar;
      reflexivity.
  - left. unfold stopSession.
    pose proof (_stopTimerInternal_display true m) as H.
    destruct (_stopTimerInternal true m) as [m1 calls]. exact H.
  - left. unfold dispose.
    pose proof (_stopTimerInternal_display false m) as H.
    destruct (_stopTimerInternal false m) as [m1 calls]. exact H.
Qed.

Lemma status_bar_in_step_paused :
  let paused := (togglePauseOrResume 5000 running0).1 in
  reachable paused
  /\ text (_statusBarItem paused) = TextFocus (of_Z 60000) false.
Proof.
  assert (Hreach : reachable (togglePauseOrResume 5000 running0).1)
    by exact (reachable_step (Toggle 5000) _
                (reachable_step (Start 0 (of_Z 1)) _ (reachable_new ∅))).
  split; [exact Hreach |].
  destruct (status_bar_in_step _ Hreach) as [Ht | (Hr & _)];
    [| discriminate Hr].
  rewrite Ht. reflexivity.
Defined.

(** ** The course of a session *)

(** X6: While a session keeps running its end does not drift.  Take a timer
    whose remaining time and last tick are whole numbers of milliseconds,
    and ticks, however spaced, under a clock that does not go back and
    stays at most 2^53: if the timer still runs after them, it ran all
    along, and the time of the last tick plus the remaining time is what it
    was before them. *)
Theorem deadline_kept_while_running (ticks : list (Z * finish_env))
    (m : FocusSessionManager) (r t : Z) :
  reachable m ->
  _remainingMs m = of_Z r -> _lastTickTime m = of_Z t ->
  0 <= t -> r <= 2 ^ 53 ->
  clock_non_decreasing ticks m ->
  Forall (fun tick : Z * finish_env => tick.1 <= 2 ^ 53) ticks ->
  _running (after_ticks ticks m) = true ->
  _running m = true /\ deadline (after_ticks ticks m) = deadline m.
Proof.
  intros Hreach _ _ _ _ _ _. clear r t.
  apply reachable_timer_ok in Hreach. revert m Hreach.
  induction ticks as [| [now env] rest IH]; intros m Hok Hfinal.
  - cbn in *. auto.
  - cbn [after_ticks] in *.
    pose proof (timer_ok_step (Tick now env) m Hok) as Hok'. cbn [step] in Hok'.
    destruct (IH _ Hok' Hfinal) as [Hrun1 Hdl]. rewrite Hdl. clear IH Hdl Hfinal.
    destruct (_running m) eqn:Hrun.
    + split; [reflexivity |].
      pose proof (_onTick_running now env m Hrun) as H. cbv zeta in H.
      destruct H as (Hlast & Hr & Hrunning & _).
      rewrite Hrun1 in Hrunning. symmetry in Hrunning.
      apply negb_true_iff in Hrunning. rewrite Hrunning in Hr.
      unfold deadline. rewrite Hlast, Hr.
      apply timer_ok_iff in Hok as (r & t & -> & -> & _ & _).
      cbn. f_equal. ring.
    + rewrite (_onTick_not_running now env m Hrun) in Hrun1 |- *.
      cbn [fst] in *. congruence.
Qed.

Lemma deadline_kept_while_running_one_minute :
  let ticks := [(900, env0 900); (2100, env0 2100); (2950, env0 2950)] in
  reachable running0
  /\ clock_non_decreasing ticks running0
  /\ _running (after_ticks ticks running0) = true
  /\ deadline (after_ticks ticks running0) = deadline running0.
Proof.
  assert (Hreach : reachable running0)
    by exact (reachable_step (Start 0 (of_Z 1)) idle0 (reachable_new ∅)).
  assert (Hclock : clock_non_decreasing
                     [(900, env0 900); (2100, env0 2100); (2950, env0 2950)]
                     running0)
    by (cbn; repeat split; reflexivity).
  split; [exact Hreach | split; [exact Hclock | split; [reflexivity |]]].
  apply (deadline_kept_while_running
           [(900, env0 900); (2100, env0 2100); (2950, env0 2950)]
           running0 60000 0 Hreach eq_refl eq_refl);
    [lia | vm_compute; discriminate | exact Hclock
     | repeat constructor; vm_compute; discriminate | reflexivity].
Defined.

(** X7: The time of a pause is not charged.  Take a running timer with a
    remaining time of [r] ms, a whole number; pause it, resume it at
    [now2], and let the next tick come at [now3], not before [now2], the
    clock being at most 2^53: the tick takes off the remaining time what
    has passed since the resume, and no more, whenever the pause began and
    whatever the last tick before it was; what is left is not below 0. *)
Theorem pause_is_not_charged (now1 now2 now3 : Z) (env : finish_env)
    (m : FocusSessionManager) (r : Z) :
  _running m = true -> _remainingMs m = of_Z r -> 0 < r <= 2 ^ 53 ->
  0 <= now2 <= now3 -> now3 <= 2 ^ 53 ->
  let resumed := (togglePauseOrResume now2 (togglePauseOrResume now1 m).1).1 in
  _remainingMs (_onTick now3 env resumed).1
  = of_Z (Z.max 0 (r - (now3 - now2))).
Proof.
  intros Hrun Hrem Hr _ _ resumed.
  assert (Hpos : num_leb (_remainingMs m) (of_Z 0) = false).
  { rewrite Hrem, num_leb_of_Z. apply Z.leb_gt. lia. }
  assert (H : _running resumed = true /\ _remainingMs resumed = _remainingMs m
              /\ _lastTickTime resumed = of_Z now2).
  { subst resumed. rewrite (togglePauseOrResume_running now1 m Hrun).
    cbn [fst]. rewrite togglePauseOrResume_paused.
    - cbn [fst]. autorewrite with fields. cbn. autorewrite with fields.
      auto.
    - autorewrite with fields. reflexivity.
    - autorewrite with fields. cbn. exact Hpos. }
  destruct H as (Hrun' & Hr' & Hlast).
  pose proof (_onTick_running now3 env resumed Hrun') as H. cbv zeta in H.
  destruct H as (_ & H & _). rewrite H, Hr', Hlast, Hrem.
  rewrite !num_sub_of_Z, num_leb_of_Z.
  destruct (Z.leb_spec (r - (now3 - now2)) 0); f_equal; lia.
Qed.

Lemma pause_is_not_charged_one_minute :
  _running running0 = true /\ _remainingMs running0 = of_Z 60000
  /\ _remainingMs
       (_onTick 91000 (env0 91000)
          (togglePauseOrResume 90000
             (togglePauseOrResume 5000 running0).1).1).1
     = of_Z (Z.max 0 (60000 - (91000 - 90000))).
Proof.
  split; [reflexivity | split; [reflexivity |]].
  apply (pause_is_not_charged 5000 90000 91000 (env0 91000) running0 60000
           eq_refl eq_refl);
    [split; [lia | vm_compute; discriminate] | lia | vm_compute; discriminate].
Defined.

(** X8: A session that has run out is over: the tick that brings the remaining
    time to zero or below leaves no interval, no run and no time, under the
    text of a finished session; from there [togglePauseOrResume] only says
    that no session is started, and a late tick does nothing. *)
Theorem finished_session_is_over (now now' : Z) (env env' : finish_env)
    (m : FocusSessionManager) :
  _running m = true ->
  num_le (num_sub (_remainingMs m) (num_sub (of_Z now) (_lastTickTime m)))
    (of_Z 0) ->
  let finished := (_onTick now env m).1 in
  _timer finished = None /\ _running finished = false
  /\ _remainingMs finished = of_Z 0
  /\ text (_statusBarItem finished) = TextFinished
  /\ togglePauseOrResume now' finished
     = (finished, [ShowInformationMessage MsgNotStarted])
  /\ _onTick now' env' finished = (finished, []).
Proof.
  intros Hrun Hle finished. unfold num_le in Hle.
  pose proof (_onTick_running now env m Hrun) as H. cbv zeta in H.
  destruct H as (_ & Hr & Hrunning & _).
  pose proof (_onTick_running_host now env m Hrun) as H. cbv zeta in H.
  destruct H as (Ht & Htext & _).
  rewrite Hle in Hr, Hrunning, Ht, Htext. fold finished in Hr, Hrunning, Ht, Htext.
  cbn in Hrunning.
  repeat split; try assumption.
  - unfold togglePauseOrResume. rewrite Hr, Hrunning. reflexivity.
  - apply _onTick_not_running, Hrunning.
Qed.

Lemma finished_session_is_over_late_tick :
  let m := (togglePauseOrResume 30000 (togglePauseOrResume 1000 running0).1).1 in
  _running m = true
  /\ togglePauseOrResume 95000 (_onTick 90000 (env0 90000) m).1
     = ((_onTick 90000 (env0 90000) m).1,
        [ShowInformationMessage MsgNotStarted]).
Proof.
  split; [reflexivity |].
  apply (finished_session_is_over 90000 95000 (env0 90000) (env0 95000));
    reflexivity.
Defined.

(** ** The statistics over a run *)

Lemma num_le_refl (n : number) : n <> NaN -> num_le n n.
Proof.
  unfold num_le. destruct n; cbn; try congruence. intros _.
  apply Qcleb_le, Qcle_refl.
Qed.

Lemma num_le_trans (a b c : number) : num_le a b -> num_le b c -> num_le a c.
Proof.
  unfold num_le. destruct a, b, c; cbn; try congruence.
  rewrite !Qcleb_le. apply Qcle_trans.
Qed.

Lemma num_le_add_pos (n d : number) :
  n <> NaN -> Number_isFinite d = true -> num_lt (of_Z 0) d ->
  num_le n (num_add n d).
Proof.
  unfold num_le, num_lt. destruct n, d; cbn; try congruence.
  intros _ _ Hd. apply Qcltb_lt in Hd. apply Qcleb_le. qc_to_q.
  unfold inject_Z in *. lra.
Qed.

(** What one addition does to the milliseconds of any day. *)
Lemma addFocusedMilliseconds_grows today today' deltaMs sm n :
  getTodayMilliseconds today sm = JNum n ->
  exists n' : number,
    getTodayMilliseconds today (addFocusedMilliseconds today' deltaMs sm).1.1
    = JNum n'
    /\ num_le n n'.
Proof.
  intros Hn. pose proof (js_or_number _ _ Hn) as Hnan.
  destruct (Number_isFinite deltaMs) eqn:Hfin;
    [| exists n; split; [| apply num_le_refl, Hnan];
       unfold addFocusedMilliseconds; rewrite Hfin; exact Hn].
  destruct (num_leb deltaMs (of_Z 0)) eqn:Hle;
    [exists n; split; [| apply num_le_refl, Hnan];
     unfold addFocusedMilliseconds; rewrite Hle, orb_true_r; exact Hn |].
  assert (Hpos : num_lt (of_Z 0) deltaMs).
  { destruct deltaMs; try discriminate. apply num_leb_false_lt, Hle. }
  destruct (decide (getTodayKey today' = getTodayKey today)) as [Hkey | Hkey].
  - exists (num_add n deltaMs). split.
    + apply getTodayMilliseconds_added; assumption.
    + apply num_le_add_pos; assumption.
  - exists n. split; [| apply num_le_refl, Hnan].
    rewrite addFocusedMilliseconds_adds by assumption. cbn [fst].
    unfold getTodayMilliseconds, get_prop, set_prop in *. cbn [_stats props].
    rewrite lookup_insert_ne by exact Hkey. exact Hn.
Qed.

Lemma step_statistics_grow (e : event) today m n :
  getTodayMilliseconds today (_statsManager m) = JNum n ->
  exists n' : number,
    getTodayMilliseconds today (_statsManager (step e m).1) = JNum n'
    /\ num_le n n'.
Proof.
  intros Hn.
  destruct (step_keeps_statistics e m) as [[Hsame _] | (now & env & -> & Hrun & Hle)].
  - exists n. rewrite Hsame. split; [exact Hn |].
    apply num_le_refl, (js_or_number _ _ Hn).
  - cbn [step]. pose proof (_onTick_running now env m Hrun) as H.
    cbv zeta in H. destruct H as (_ & _ & _ & H).
    unfold num_le in Hle. rewrite Hle in H. rewrite H.
    apply addFocusedMilliseconds_grows, Hn.
Qed.

(** X9: The statistics only grow: whatever happens to the manager, the
    milliseconds of a day whose bucket holds a number are, after any run, a
    number that is not smaller. *)
Theorem statistics_never_decrease (es : list event) (today : Date)
    (m : FocusSessionManager) (n : number) :
  getTodayMilliseconds today (_statsManager m) = JNum n ->
  exists n' : number,
    getTodayMilliseconds today (_statsManager (run es m).1) = JNum n'
    /\ num_le n n'.
Proof.
  revert m n. induction es as [| e es IH]; intros m n Hn; cbn [run].
  - exists n. split; [exact Hn |]. apply num_le_refl, (js_or_number _ _ Hn).
  - destruct (step_statistics_grow e today m n Hn) as (n1 & Hn1 & Hle1).
    destruct (step e m) as [m1 c1]. cbn [fst] in Hn1.
    destruct (IH m1 n1 Hn1) as (n2 & Hn2 & Hle2).
    destruct (run es m1) as [m2 c2]. cbn [fst] in *.
    exists n2. split; [exact Hn2 |]. exact (num_le_trans _ _ _ Hle1 Hle2).
Qed.

Lemma statistics_never_decrease_one_minute :
  getTodayMilliseconds today0 (_statsManager idle0) = JNum (of_Z 0)
  /\ exists n' : number,
       getTodayMilliseconds today0
         (_statsManager (run (Start 0 (of_Z 1) :: one_minute_of_ticks) idle0).1)
       = JNum n'
       /\ num_le (of_Z 0) n'.
Proof.
  split; [reflexivity |].
  apply (statistics_never_decrease (Start 0 (of_Z 1) :: one_minute_of_ticks)
           today0 idle0 (of_Z 0)).
  reflexivity.
Defined.

Lemma addFocusedMilliseconds_updates today deltaMs sm :
  let r := addFocusedMilliseconds today deltaMs sm in
  (updates r.1.2 = [] /\ r.1.1 = sm)
  \/ updates r.1.2 = [JObj (_stats r.1.1)].
Proof.
  unfold addFocusedMilliseconds. destruct (_ || _); cbn; auto.
Qed.

Lemma _finishSession_updates env m :
  let spentMs :=
    Math_max (of_Z 0)
      (num_add (num_sub (of_Z (finish_now env)) (_lastTickTime m))
         TICK_INTERVAL_MS) in
  updates (_finishSession env m).2
  = updates
      (addFocusedMilliseconds (finish_today env) spentMs (_statsManager m)).1.2.
Proof.
  intros spentMs. unfold _finishSession. fold spentMs.
  pose proof (_stopTimerInternal_spec false (set_running false m)) as H.
  pose proof (_stopTimerInternal_updates false (set_running false m)) as Hu.
  cbv zeta in H.
  destruct (_stopTimerInternal false (set_running false m)) as [m1 calls].
  cbn [fst snd] in H, Hu. destruct H as (H1 & _).
  cbn in H1. cbn [_statsManager set_text set_statusBarItem]. rewrite H1.
  destruct (addFocusedMilliseconds _ _ _) as [[sm saved] p]. cbn [fst snd].
  rewrite !updates_app, Hu. cbn [app].
  destruct (fulfilled p (update_ok env)); cbn; apply app_nil_r.
Qed.

(** A step issues no update and leaves the statistics alone, or issues the
    one update that carries the mapping it leaves. *)
Lemma step_updates (e : event) (m : FocusSessionManager) :
  (updates (step e m).2 = []
   /\ _statsManager (step e m).1 = _statsManager m)
  \/ updates (step e m).2 = [JObj (_stats (_statsManager (step e m).1))].
Proof.
  destruct (step_keeps_statistics e m)
    as [[Hsame Hnone] | (now & env & -> & Hrun & Hle)]; [auto |].
  cbn [step]. unfold num_le in Hle.
  pose proof (_onTick_running now env m Hrun) as H. cbv zeta in H.
  destruct H as (_ & _ & _ & Hsm). rewrite Hle in Hsm.
  rewrite (_onTick_running_eq now env m Hrun). cbv zeta. rewrite Hle.
  rewrite (_onTick_running_eq now env m Hrun) in Hsm. cbv zeta in Hsm.
  rewrite Hle in Hsm. rewrite Hsm, _finishSession_updates.
  autorewrite with fields. cbn [_statsManager _lastTickTime set_remainingMs
    set_lastTickTime].
  destruct (addFocusedMilliseconds_updates (finish_today env)
              (Math_max (of_Z 0)
                 (num_add (num_sub (of_Z (finish_now env)) (of_Z now))
                    TICK_INTERVAL_MS))
              (_statsManager m)) as [[H1 H2] | H1]; cbv zeta in *.
  - left. rewrite H1, H2. auto.
  - right. exact H1.
Qed.

(** X10: What is in memory is what was last written: after any run, the mapping
    of the statistics is the payload of the last update the run issued, and
    the mapping the run started from if it issued none. *)
Theorem last_update_is_the_statistics (es : list event)
    (m : FocusSessionManager) :
  JObj (_stats (_statsManager (run es m).1))
  = default (JObj (_stats (_statsManager m))) (last (updates (run es m).2)).
Proof.
  revert m. induction es as [| e es IH]; intros m; cbn [run]; [reflexivity |].
  pose proof (step_updates e m) as Hstep.
  destruct (step e m) as [m1 c1]. specialize (IH m1).
  destruct (run es m1) as [m2 c2]. cbn [fst snd] in *.
  rewrite updates_app, IH, last_app.
  destruct (last (updates c2)) as [v |]; [reflexivity |]. cbn [default].
  destruct Hstep as [[-> ->] | ->]; reflexivity.
Qed.

(** X11: What [_saveStats] writes, [_loadStats] reads back: a store that holds
    the payload of the update under the key of the statistics loads as the
    very mapping that was saved, whatever else the store holds. *)
Theorem saved_statistics_load_back (sm : StatsManager)
    (g : gmap string jsval) :
  exists v : jsval,
    (_saveStats sm).1.2 = [MementoUpdate STORAGE_KEY_STATS v]
    /\ _loadStats (<[STORAGE_KEY_STATS := v]> g) = _stats sm
    /\ _stats (StatsManager_new (<[STORAGE_KEY_STATS := v]> g)) = _stats sm.
Proof.
  exists (JObj (_stats sm)).
  assert (H : forall g' : gmap string jsval,
            _loadStats (<[STORAGE_KEY_STATS := JObj (_stats sm)]> g')
            = _stats sm).
  { intros g'. unfold _loadStats, Memento_get. rewrite lookup_insert_eq.
    destruct (_stats sm) as [a p]. reflexivity. }
  split; [reflexivity | split; apply H].
Qed.

(** ** The key of a day *)

Lemma pad2_checked :
  forallb
    (fun n =>
       match padStart 2 "0"%char (pretty n) with
       | String a (String b EmptyString) => is_digit a && is_digit b
       | _ => false
       end)
    (seqZ 0 100) = true.
Proof. vm_compute. reflexivity. Qed.

Lemma pad2_digits (n : Z) :
  0 <= n < 100 ->
  exists a b : ascii,
    padStart 2 "0"%char (pretty n) = String a (String b EmptyString)
    /\ is_digit a = true /\ is_digit b = true.
Proof.
  intros Hn. pose proof pad2_checked as H.
  rewrite forallb_forall in H. specialize (H n).
  assert (Hin : In n (seqZ 0 100))
    by (apply list_elem_of_In, elem_of_seqZ; lia).
  specialize (H Hin).
  destruct (padStart 2 "0"%char (pretty n)) as [| a [| b [| c s]]];
    try discriminate.
  apply andb_true_iff in H. exists a, b. tauto.
Qed.

Lemma pad2_distinct_checked :
  forallb
    (fun a =>
       forallb
         (fun b =>
            implb
              (String.eqb (padStart 2 "0"%char (pretty a))
                 (padStart 2 "0"%char (pretty b)))
              (a =? b))
         (seqZ 0 100))
    (seqZ 0 100) = true.
Proof. vm_compute. reflexivity. Qed.

Lemma pad2_inj (a b : Z) :
  0 <= a < 100 -> 0 <= b < 100 ->
  padStart 2 "0"%char (pretty a) = padStart 2 "0"%char (pretty b) -> a = b.
Proof.
  intros Ha Hb Heq. pose proof pad2_distinct_checked as H.
  rewrite forallb_forall in H. specialize (H a).
  assert (Hina : In a (seqZ 0 100))
    by (apply list_elem_of_In, elem_of_seqZ; lia).
  specialize (H Hina). rewrite forallb_forall in H. specialize (H b).
  assert (Hinb : In b (seqZ 0 100))
    by (apply list_elem_of_In, elem_of_seqZ; lia).
  specialize (H Hinb). rewrite Heq, String.eqb_refl in H. cbn in H.
  apply Z.eqb_eq, H.
Qed.

Lemma year_checked :
  forallb
    (fun y =>
       match pretty y with
       | String a (String b (String c (String d EmptyString))) =>
           is_digit a && is_digit b && is_digit c && is_digit d
       | _ => false
       end)
    (seqZ 1000 9000) = true.
Proof. vm_compute. reflexivity. Qed.

Lemma valid_date_bounds (d : Date) :
  valid_date d = true -> 0 <= getMonth d <= 11 /\ 1 <= getDate d <= 31.
Proof. unfold valid_date. rewrite !andb_true_iff, !Z.leb_le. tauto. Qed.

Lemma getTodayKey_shape (d : Date) :
  valid_date d = true -> 1000 <= getFullYear d <= 9999 ->
  is_date_key (getTodayKey d) = true /\ String.length (getTodayKey d) = 10%nat.
Proof.
  intros Hd Hy. apply valid_date_bounds in Hd as [Hmonth Hday].
  destruct (pad2_digits (getMonth d + 1)) as (m1 & m2 & Hm & Hm1 & Hm2); [lia |].
  destruct (pad2_digits (getDate d)) as (d1 & d2 & Hdd & Hd1 & Hd2); [lia |].
  pose proof year_checked as H. rewrite forallb_forall in H.
  specialize (H (getFullYear d)).
  assert (Hin : In (getFullYear d) (seqZ 1000 9000))
    by (apply list_elem_of_In, elem_of_seqZ; lia).
  specialize (H Hin). unfold getTodayKey. rewrite Hm, Hdd.
  destruct (pretty (getFullYear d))
    as [| y1 [| y2 [| y3 [| y4 [| y5 s]]]]]; try discriminate.
  rewrite !andb_true_iff in H. destruct H as [[[Hy1 Hy2] Hy3] Hy4].
  split; [| reflexivity].
  unfold is_date_key. cbv -[is_digit].
  rewrite Hy1, Hy2, Hy3, Hy4, Hm1, Hm2, Hd1, Hd2. reflexivity.
Qed.

(** X12: The key of a day in the years 1000 to 9999 has the shape YYYY-MM-DD. *)
Theorem getTodayKey_is_date_key (d : Date) :
  valid_date d = true -> 1000 <= getFullYear d <= 9999 ->
  is_date_key (getTodayKey d) = true /\ String.length (getTodayKey d) = 10%nat.
Proof. intros Hd Hy. split; apply getTodayKey_shape; assumption. Qed.

Lemma getTodayKey_is_date_key_today :
  valid_date today0 = true /\ is_date_key (getTodayKey today0) = true.
Proof.
  split; [reflexivity |].
  apply (getTodayKey_is_date_key today0); [reflexivity | cbn; lia].
Defined.

Lemma length_append (s t : string) :
  String.length (s +:+ t) = (String.length s + String.length t)%nat.
Proof.
  induction s as [| c s IH]; [reflexivity |].
  change (String c s +:+ t) with (String c (s +:+ t)).
  cbn [String.length]. rewrite IH. reflexivity.
Qed.

Lemma append_inj_suffix (s1 s2 t1 t2 : string) :
  s1 +:+ t1 = s2 +:+ t2 -> String.length t1 = String.length t2 ->
  s1 = s2 /\ t1 = t2.
Proof.
  revert s2. induction s1 as [| c s1 IH]; intros [| c' s2] Heq Hlen.
  - auto.
  - exfalso. apply (f_equal String.length) in Heq.
    rewrite !length_append in Heq. cbn [String.length] in Heq. lia.
  - exfalso. apply (f_equal String.length) in Heq.
    rewrite !length_append in Heq. cbn [String.length] in Heq. lia.
  - change (String c (s1 +:+ t1) = String c' (s2 +:+ t2)) in Heq.
    injection Heq as -> Heq. destruct (IH s2 Heq Hlen) as [-> ->]. auto.
Qed.

(** Two days with the same key are the same day. *)
Lemma getTodayKey_injective (d1 d2 : Date) :
  valid_date d1 = true -> valid_date d2 = true ->
  getTodayKey d1 = getTodayKey d2 -> d1 = d2.
Proof.
  intros H1 H2 Hkey.
  apply valid_date_bounds in H1 as [Hmonth1 Hday1].
  apply valid_date_bounds in H2 as [Hmonth2 Hday2].
  destruct (pad2_digits (getMonth d1 + 1)) as (a1 & b1 & Hm1 & _); [lia |].
  destruct (pad2_digits (getDate d1)) as (e1 & f1 & Hd1 & _); [lia |].
  destruct (pad2_digits (getMonth d2 + 1)) as (a2 & b2 & Hm2 & _); [lia |].
  destruct (pad2_digits (getDate d2)) as (e2 & f2 & Hd2 & _); [lia |].
  unfold getTodayKey in Hkey. cbv zeta in Hkey.
  pose proof Hkey as Hkey'. rewrite Hm1, Hd1, Hm2, Hd2 in Hkey'.
  apply append_inj_suffix in Hkey' as [Hy Hrest]; [| reflexivity].
  apply (inj pretty) in Hy.
  injection Hrest as -> -> -> ->.
  rewrite <- Hm2 in Hm1. rewrite <- Hd2 in Hd1.
  apply pad2_inj in Hm1; [| lia | lia]. apply pad2_inj in Hd1; [| lia | lia].
  destruct d1 as [y1 m1 day1], d2 as [y2 m2 day2]. cbn in *.
  f_equal; lia.
Qed.

(** X13: Two days with the same key are the same day: no two days of the
    calendar, of any year, share a bucket. *)
Theorem getTodayKey_inj (d1 d2 : Date) :
  valid_date d1 = true -> valid_date d2 = true ->
  getTodayKey d1 = getTodayKey d2 -> d1 = d2.
Proof. apply getTodayKey_injective. Qed.

Lemma getTodayKey_inj_today :
  valid_date today0 = true
  /\ {| getFullYear := 2026; getMonth := 10; getDate := 2 |} = today0.
Proof.
  split; [reflexivity |].
  apply (getTodayKey_inj _ today0); reflexivity.
Defined.

(** ** Additions to the bucket of the day *)




(** ** The shape of the statistics *)

Lemma well_formed_mapping_iff (o : object) :
  well_formed_mapping (JObj o) = true <->
  isArray o = false
  /\ map_Forall (fun k v => is_date_key k && is_number v = true) (props o).
Proof.
  unfold JObj, well_formed_mapping. destruct (isArray o).
  - split; [discriminate | intros [? _]; discriminate].
  - rewrite map_Forall_to_list, <- Is_true_true, forallb_True.
    split.
    + intros H. split; [reflexivity |].
      eapply Forall_impl; [exact H |]. intros [k v] Hkv.
      apply Is_true_true. exact Hkv.
    + intros [_ H]. eapply Forall_impl; [exact H |]. intros [k v] Hkv.
      apply Is_true_true. exact Hkv.
Qed.

(** X14: An addition keeps the statistics well formed: on a day of the years
    1000 to 9999, [addFocusedMilliseconds] turns a mapping from day keys to
    numbers into a mapping from day keys to numbers, whatever the delta. *)
Theorem addFocusedMilliseconds_keeps_well_formed (today : Date)
    (deltaMs : number) (sm : StatsManager) :
  well_formed_mapping (JObj (_stats sm)) = true ->
  valid_date today = true -> 1000 <= getFullYear today <= 9999 ->
  well_formed_mapping
    (JObj (_stats (addFocusedMilliseconds today deltaMs sm).1.1)) = true.
Proof.
  intros Hwf Hd Hy. unfold addFocusedMilliseconds.
  destruct (_ || _); [exact Hwf |]. cbn [fst _saveStats _stats].
  apply well_formed_mapping_iff in Hwf as [Harr Hall].
  apply well_formed_mapping_iff. cbn [set_prop isArray props].
  split; [exact Harr |].
  apply map_Forall_insert_2; [| exact Hall].
  destruct (getTodayKey_shape today Hd Hy) as [-> _].
  unfold get_prop.
  destruct (props (_stats sm) !! getTodayKey today) as [v |] eqn:Hv;
    [| reflexivity].
  apply Hall in Hv. apply andb_true_iff in Hv as [_ Hv].
  destruct v; try discriminate. cbn [default id].
  unfold js_or. destruct (truthy (JNum n)); reflexivity.
Qed.

Lemma addFocusedMilliseconds_keeps_well_formed_sample :
  well_formed_mapping (JObj (_stats stats0)) = true
  /\ well_formed_mapping
       (JObj (_stats (addFocusedMilliseconds today0 (of_Z 1000) stats0).1.1))
     = true.
Proof.
  assert (Hwf : well_formed_mapping (JObj (_stats stats0)) = true)
    by (vm_compute; reflexivity).
  split; [exact Hwf |].
  apply (addFocusedMilliseconds_keeps_well_formed today0 (of_Z 1000) stats0 Hwf);
    [reflexivity | cbn; lia].
Defined.

(** ** The text of a duration *)

Lemma Qfloor_unique (x : Q) (z : Z) :
  (inject_Z z <= x)%Q -> (x < inject_Z (z + 1))%Q -> Qfloor x = z.
Proof.
  intros Hlo Hhi.
  pose proof (Qfloor_le x) as H1. pose proof (Qlt_floor x) as H2.
  assert (Ha : (inject_Z (Qfloor x) < inject_Z (z + 1))%Q)
    by (eapply Qle_lt_trans; eassumption).
  assert (Hb : (inject_Z z < inject_Z (Qfloor x + 1))%Q)
    by (eapply Qle_lt_trans; eassumption).
  rewrite <- Zlt_Qlt in Ha, Hb. lia.
Qed.

(** The whole seconds of a non-negative number of milliseconds given as
    whole seconds [z] and a rest [f] below one second. *)
Lemma whole_seconds (z : Z) (f : Qc) :
  (0 <= f)%Qc -> (f < Q2Qc (inject_Z 1000))%Qc ->
  Qfloor ((Q2Qc (inject_Z (z * 1000)) + f) / Q2Qc (inject_Z 1000))%Qc = z.
Proof.
  intros Hlo Hhi. apply Qfloor_unique.
  - unfold Qcdiv, Qcinv. qc_to_q. rewrite inject_Z_mult.
    apply Qle_shift_div_l; [reflexivity |]. lra.
  - unfold Qcdiv, Qcinv. qc_to_q. rewrite inject_Z_mult, inject_Z_plus.
    apply Qlt_shift_div_r; [reflexivity |].
    change (inject_Z 1) with 1%Q. lra.
Qed.

Lemma formatDuration_whole_seconds (z : Z) (f : Qc) :
  0 <= z -> (0 <= f)%Qc -> (f < Q2Qc (inject_Z 1000))%Qc ->
  formatDuration (JNum (Fin (Q2Qc (inject_Z (z * 1000)) + f)))
  = (let minutes := z `div` 60 in
     let seconds := z `mod` 60 in
     if (minutes <=? 0) && (seconds <=? 0) then "0 сек"
     else if minutes <=? 0 then pretty seconds +:+ " сек"
     else if seconds <=? 0 then pretty minutes +:+ " мин"
     else pretty minutes +:+ " мин " +:+ pretty seconds +:+ " сек").
Proof.
  intros Hz Hlo Hhi. unfold formatDuration.
  assert (Hneg : Qcltb (Q2Qc (inject_Z (z * 1000)) + f) 0 = false).
  { apply not_true_iff_false. rewrite Qcltb_lt. apply Qcle_not_lt.
    qc_to_q. rewrite inject_Z_mult.
    assert (inject_Z 0 <= inject_Z z)%Q by (rewrite <- Zle_Qle; exact Hz).
    change (inject_Z 0) with 0%Q in *.
    change (inject_Z 1000) with (1000 # 1). nra. }
  rewrite Hneg, (whole_seconds z f Hlo Hhi). reflexivity.
Qed.

(** X15: What is not a number, what is not finite, what is negative and what is
    below one second all read "0 сек". *)
Theorem formatDuration_zero (ms : jsval) :
  (forall q : Qc, ms = JNum (Fin q) -> (q < Q2Qc (inject_Z 1000))%Qc) ->
  formatDuration ms = "0 сек".
Proof.
  intros Hms.
  assert (Hzero : formatDuration (JNum (Fin 0)) = "0 сек") by reflexivity.
  destruct ms as [| | b | [| | | q] | s | v n | a p]; try exact Hzero.
  specialize (Hms q eq_refl).
  destruct (Qcltb q 0) eqn:Hneg.
  - unfold formatDuration. rewrite Hneg. exact Hzero.
  - assert (Hq : (0 <= q)%Qc).
    { apply Qcnot_lt_le. rewrite <- Qcltb_lt. congruence. }
    replace q with (Q2Qc (inject_Z (0 * 1000)) + q)%Qc
      by (apply Qcplus_0_l).
    rewrite (formatDuration_whole_seconds 0 q (Z.le_refl 0) Hq Hms).
    reflexivity.
Qed.

Lemma formatDuration_zero_samples :
  formatDuration (JNum NaN) = "0 сек"
  /\ formatDuration (JNum (of_Z (-5))) = "0 сек"
  /\ formatDuration (JNum (of_Z 999)) = "0 сек"
  /\ formatDuration (JStr "90000") = "0 сек".
Proof.
  split; [| split; [| split]]; apply formatDuration_zero; intros q [= <-];
    reflexivity.
Defined.

(** X16: A duration below 2^53 ms, of [m] minutes, [s] seconds (below sixty)
    and a rest below one second, reads "0 сек" when [m] and [s] are zero,
    the seconds alone when [m] is zero, the minutes alone when [s] is zero,
    and the minutes and the seconds otherwise; the rest is not shown. *)
Theorem formatDuration_minutes_seconds (m s : Z) (f : Qc) :
  0 <= m -> 0 <= s < 60 -> (0 <= f)%Qc -> (f < Q2Qc (inject_Z 1000))%Qc ->
  (m * 60 + s + 1) * 1000 <= 2 ^ 53 ->
  formatDuration (JNum (Fin (Q2Qc (inject_Z ((m * 60 + s) * 1000)) + f)))
  = if (m =? 0) && (s =? 0) then "0 сек"
    else if m =? 0 then pretty s +:+ " сек"
    else if s =? 0 then pretty m +:+ " мин"
    else pretty m +:+ " мин " +:+ pretty s +:+ " сек".
Proof.
  intros Hm Hs Hlo Hhi _.
  rewrite formatDuration_whole_seconds by (assumption || lia). cbv zeta.
  rewrite <- (Z.div_unique (m * 60 + s) 60 m s) by lia.
  rewrite <- (Z.mod_unique (m * 60 + s) 60 m s) by lia.
  destruct (Z.eqb_spec m 0) as [-> | Hm0], (Z.eqb_spec s 0) as [-> | Hs0];
    cbn [andb Z.leb Z.compare]; try reflexivity.
  - replace (s <=? 0) with false by (symmetry; apply Z.leb_gt; lia).
    reflexivity.
  - replace (m <=? 0) with false by (symmetry; apply Z.leb_gt; lia).
    reflexivity.
  - replace (m <=? 0) with false by (symmetry; apply Z.leb_gt; lia).
    replace (s <=? 0) with false by (symmetry; apply Z.leb_gt; lia).
    reflexivity.
Qed.

Lemma formatDuration_minutes_seconds_samples :
  formatDuration (JNum (of_Z 125000)) = "2 мин 5 сек"
  /\ formatDuration (JNum (of_Z 60000)) = "1 мин"
  /\ formatDuration (JNum (Fin (Q2Qc (45999 # 1) + Q2Qc (1 # 2)))) = "45 сек".
Proof.
  split; [| split].
  - replace (of_Z 125000)
      with (Fin (Q2Qc (inject_Z ((2 * 60 + 5) * 1000)) + 0))
      by (unfold of_Z; f_equal; apply Qc_is_canon; reflexivity).
    apply (formatDuration_minutes_seconds 2 5 0);
      first [lia | reflexivity | vm_compute; discriminate].
  - replace (of_Z 60000)
      with (Fin (Q2Qc (inject_Z ((1 * 60 + 0) * 1000)) + 0))
      by (unfold of_Z; f_equal; apply Qc_is_canon; reflexivity).
    apply (formatDuration_minutes_seconds 1 0 0);
      first [lia | reflexivity | vm_compute; discriminate].
  - replace (Q2Qc (45999 # 1) + Q2Qc (1 # 2))%Qc
      with (Q2Qc (inject_Z ((0 * 60 + 45) * 1000)) + Q2Qc (1999 # 2))%Qc
      by (apply Qc_is_canon; reflexivity).
    apply (formatDuration_minutes_seconds 0 45 (Q2Qc (1999 # 2)));
      first [lia | apply Qcleb_le; reflexivity | reflexivity
            | vm_compute; discriminate].
Defined.

(** ** The statistics of the day, in words *)

Lemma num_add_positive (n d : number) :
  num_le (of_Z 0) n -> Number_isFinite d = true -> num_lt (of_Z 0) d ->
  num_leb (num_add n d) (of_Z 0) = false.
Proof.
  unfold num_le, num_lt. destruct n, d; cbn; try congruence.
  rewrite Qcleb_le, Qcltb_lt, Qcleb_nle. intros Hn _ Hd. qc_to_q.
  unfold inject_Z in *. lra.
Qed.

(** X17: With no time on the day, [getTodayStatsMessage] says that there are no
    statistics; and once a whole number of milliseconds is added to a day
    whose bucket holds a whole number that is not negative, the sum being
    at most 2^53, it reports the text of the sum, whatever the conversion
    of texts to numbers is. *)
Theorem getTodayStatsMessage_reports_sum (ToNumber_text : jsval -> number)
    (today : Date) (sm : StatsManager) (a d : Z) :
  getTodayMilliseconds today sm = JNum (of_Z a) ->
  0 <= a -> 0 < d -> a + d <= 2 ^ 53 ->
  (a = 0 ->
   getTodayStatsMessage ToNumber_text today sm
   = "Сегодня статистика фокус-сессий отсутствует.")
  /\ getTodayStatsMessage ToNumber_text today
       (addFocusedMilliseconds today (of_Z d) sm).1.1
     = "Сегодня вы работали фокусно "
       +:+ formatDuration (JNum (of_Z (a + d))) +:+ ".".
Proof.
  intros Hn Ha Hd _. split.
  - intros ->. unfold getTodayStatsMessage. rewrite Hn. reflexivity.
  - assert (Hfin : Number_isFinite (of_Z d) = true) by reflexivity.
    assert (Hpos : num_lt (of_Z 0) (of_Z d)).
    { unfold num_lt. rewrite num_ltb_of_Z. apply Z.ltb_lt, Hd. }
    assert (Hle : num_le (of_Z 0) (of_Z a)).
    { unfold num_le. rewrite num_leb_of_Z. apply Z.leb_le, Ha. }
    unfold getTodayStatsMessage.
    rewrite (getTodayMilliseconds_added today today (of_Z d) sm (of_Z a)
               Hfin Hpos eq_refl Hn).
    unfold js_leb. cbn [ToNumber].
    rewrite (num_add_positive (of_Z a) (of_Z d) Hle Hfin Hpos).
    rewrite num_add_of_Z. reflexivity.
Qed.

Lemma getTodayStatsMessage_reports_sum_sample :
  getTodayMilliseconds today0 (StatsManager_new ∅) = JNum (of_Z 0)
  /\ getTodayStatsMessage sample_ToNumber_text today0
       (addFocusedMilliseconds today0 (of_Z 125000) (StatsManager_new ∅)).1.1
     = "Сегодня вы работали фокусно "
       +:+ formatDuration (JNum (of_Z (0 + 125000))) +:+ ".".
Proof.
  split; [reflexivity |].
  apply (getTodayStatsMessage_reports_sum sample_ToNumber_text today0
           (StatsManager_new ∅) 0 125000);
    [reflexivity | lia | lia | vm_compute; discriminate].
Defined.

(** ** The command layer *)

Lemma finite_not_le_lt (n : number) :
  Number_isFinite n = true -> num_leb n (of_Z 0) = false ->
  num_lt (of_Z 0) n.
Proof. destruct n; try discriminate. intros _. apply num_leb_false_lt. Qed.

Lemma validateMinutesInput_accepts_iff (trim : string -> string)
    (parseFloat : string -> number) (value : string) :
  validateMinutesInput trim parseFloat value = None <->
  value <> "" /\ trim value <> ""
  /\ Number_isFinite (parseFloat (replace_comma value)) = true
  /\ num_lt (of_Z 0) (parseFloat (replace_comma value))
  /\ num_le (parseFloat (replace_comma value)) (of_Z 480).
Proof.
  unfold validateMinutesInput, num_lt, num_le.
  destruct (String.eqb_spec value "") as [-> | Hv]; cbn [orb].
  { split; [discriminate | intros [H _]; congruence]. }
  destruct (String.eqb_spec (trim value) "") as [Ht | Ht].
  { split; [discriminate | intros (_ & H & _); congruence]. }
  destruct (parseFloat (replace_comma value)) as [| | | q]; cbn;
    try (split; [discriminate | intros (_ & _ & H & _); discriminate]).
  destruct (Qcleb q (Q2Qc (inject_Z 0))) eqn:Hle.
  { split; [discriminate |]. intros (_ & _ & _ & H & _).
    unfold Qcltb in H. unfold Qcleb in Hle. rewrite Hle in H. discriminate. }
  destruct (Qcltb (Q2Qc (inject_Z 480)) q) eqn:Hgt.
  { split; [discriminate |]. intros (_ & _ & _ & _ & H).
    unfold Qcltb in Hgt. unfold Qcleb in H. rewrite H in Hgt. discriminate. }
  split; [| reflexivity]. intros _. repeat split; try assumption.
  - unfold Qcltb, Qcleb in *. rewrite Hle. reflexivity.
  - unfold Qcltb, Qcleb in *. apply negb_false_iff in Hgt. exact Hgt.
Qed.

(** X18: [validateMinutesInput] accepts a text exactly when it is not blank and
    reads, a first comma taken for the decimal point, as a finite number
    above 0 and at most 480. *)
Theorem validateMinutesInput_accepts (trim : string -> string)
    (parseFloat : string -> number) (value : string) :
  validateMinutesInput trim parseFloat value = None <->
  value <> "" /\ trim value <> ""
  /\ Number_isFinite (parseFloat (replace_comma value)) = true
  /\ num_lt (of_Z 0) (parseFloat (replace_comma value))
  /\ num_le (parseFloat (replace_comma value)) (of_Z 480).
Proof. apply validateMinutesInput_accepts_iff. Qed.

Lemma minutes_bound (q : Qc) :
  (0 < q)%Qc -> (q <= Q2Qc (inject_Z 480))%Qc ->
  num_lt (of_Z 0) (minutesToMilliseconds (Fin q))
  /\ num_le (minutesToMilliseconds (Fin q)) (of_Z 28800000).
Proof.
  intros Hlo Hhi. unfold num_lt, num_le, minutesToMilliseconds. cbn.
  rewrite Qcltb_lt, Qcleb_le. qc_to_q. unfold inject_Z in *. split; lra.
Qed.

(** X19: A text that [validateMinutesInput] accepts starts a session: given it,
    [askAndStartSession] shows no error and no warning, and leaves the
    timer running, with the interval armed, for a time above 0 and at most
    28800000 ms (eight hours), which is the minutes read times 60000 when
    they are a whole number. *)
Theorem validated_input_starts_session (trim : string -> string)
    (parseFloat : string -> number) (value : string) (now : Z)
    (m : FocusSessionManager) :
  validateMinutesInput trim parseFloat value = None ->
  let minutes := parseFloat (replace_comma value) in
  let r := askAndStartSession parseFloat (Some value) now m in
  _running r.1 = true
  /\ _timer r.1 = Some (Interval TICK_INTERVAL_MS)
  /\ _lastTickTime r.1 = of_Z now
  /\ (forall z : Z, minutes = of_Z z -> _remainingMs r.1 = of_Z (z * 60000))
  /\ num_lt (of_Z 0) (_remainingMs r.1)
  /\ num_le (_remainingMs r.1) (of_Z 28800000)
  /\ r.2 = map ManagerCall
             (match _timer m with Some t => [ClearInterval t] | None => [] end
              ++ [SetInterval TICK_INTERVAL_MS]).
Proof.
  intros Hvalid minutes r.
  apply validateMinutesInput_accepts_iff in Hvalid
    as (_ & _ & Hfin & Hpos & Hmax).
  fold minutes in Hfin, Hpos, Hmax.
  pose proof (minutesToMilliseconds_pos minutes Hfin Hpos) as Hnle.
  pose proof (startNewSession_accepted now minutes m Hnle) as H.
  cbv zeta in H. destruct H as (_ & Ht & Hr & Hrun & Hlast & _ & _ & Hc).
  subst r. unfold askAndStartSession. fold minutes.
  rewrite Hfin, (num_ltb_leb _ _ Hpos). cbn [negb orb].
  destruct (startNewSession now minutes m) as [m1 calls]. cbn [fst snd] in *.
  rewrite Hr, Hc. repeat split; try assumption.
  - intros z ->. apply minutesToMilliseconds_of_Z.
  - destruct minutes as [| | | q]; try discriminate.
    apply minutes_bound; [apply Qcltb_lt, Hpos | apply Qcleb_le, Hmax].
  - destruct minutes as [| | | q]; try discriminate.
    apply minutes_bound; [apply Qcltb_lt, Hpos | apply Qcleb_le, Hmax].
Qed.

Lemma validated_input_starts_session_sample :
  validateMinutesInput sample_trim sample_parseFloat "25" = None
  /\ _remainingMs
       (askAndStartSession sample_parseFloat (Some "25") 42 running0).1
     = of_Z (25 * 60000).
Proof.
  split; [reflexivity |].
  apply (proj1 (proj2 (proj2 (proj2
           (validated_input_starts_session sample_trim sample_parseFloat "25"
              42 running0 eq_refl)))) 25).
  reflexivity.
Defined.

(** X20: [askAndStartSession] never reaches the warning of [startNewSession]:
    whatever the input box gave, it calls for no warning, and it either
    leaves the manager as it was (with the error message, or with nothing
    when the box was dismissed) or leaves the timer running with a
    positive remaining time. *)
Theorem askAndStartSession_never_warns (parseFloat : string -> number)
    (result : option string) (now : Z) (m : FocusSessionManager) :
  let r := askAndStartSession parseFloat result now m in
  (forall msg : message, ManagerCall (ShowWarningMessage msg) ∉ r.2)
  /\ ((r.1 = m /\ (r.2 = [] \/ r.2 = [ShowErrorMessage]))
      \/ (_running r.1 = true /\ num_lt (of_Z 0) (_remainingMs r.1))).
Proof.
  intros r. subst r. unfold askAndStartSession.
  destruct result as [value |]; [| split; [intros msg; apply not_elem_of_nil | auto]].
  set (minutes := parseFloat (replace_comma value)).
  destruct (Number_isFinite minutes) eqn:Hfin; cbn [negb orb];
    [| split; [intros msg H; apply list_elem_of_singleton in H; discriminate H
              | auto]].
  destruct (num_leb minutes (of_Z 0)) eqn:Hle;
    [split; [intros msg H; apply list_elem_of_singleton in H; discriminate H
            | auto] |].
  pose proof (finite_not_le_lt minutes Hfin Hle) as Hpos.
  pose proof (minutesToMilliseconds_pos minutes Hfin Hpos) as Hnle.
  pose proof (startNewSession_accepted now minutes m Hnle) as H.
  cbv zeta in H. destruct H as (_ & _ & Hr & Hrun & _ & _ & _ & Hc).
  destruct (startNewSession now minutes m) as [m1 calls]. cbn [fst snd] in *.
  split.
  - intros msg Hin. rewrite Hc in Hin.
    apply list_elem_of_fmap in Hin as (c & Hc1 & Hc2).
    injection Hc1 as <-.
    apply list_elem_of_In, in_app_or in Hc2 as [Hc2 | Hc2].
    + destruct (_timer m); [destruct Hc2 as [Hc2 | []]; discriminate Hc2 |
                            destruct Hc2].
    + destruct Hc2 as [Hc2 | []]. discriminate Hc2.
  - right. split; [exact Hrun |]. rewrite Hr.
    destruct (minutesToMilliseconds_finite minutes) as [q Hq].
    rewrite Hq in Hnle |- *. apply num_leb_false_lt, Hnle.
Qed.
